(** * synthetic-data-kit: parser selection and conversation enhancement

    A shallow embedding of
      - [synthetic_data_kit/core/ingest.py]  ([_check_pdf_url],
        [determine_parser], [process_file]) and
      - [synthetic_data_kit/core/create.py]  ([read_json], [process_file]),
    followed by the properties of the parser selector, of the output-name
    derivation, of the conversation normaliser, of the chain-of-thought
    enhancement loop and of the output writer.

    Conventions.
      - Python values are the inductive [pyval]; a [dict] is an association
        list in insertion order (first binding of a key is the live one).
      - A Python [str] is a [string]; one [ascii] stands for one character.
      - An exception is a value of [exn]; a call that may raise returns [res].
      - Everything the two modules reach outside themselves (file system,
        network, parsers, the language-model client and the generators) is a
        field of a record of collaborators acting on an abstract world [W];
        code that calls them lives in the state-and-error monad [M W].
      - [print] calls and progress bars are left out, except where
        evaluating what is printed can raise ([report_len], [cot_report]). *)

From Stdlib Require Import ZArith List String Ascii Bool Lia.
Import ListNotations.

Local Open Scope string_scope.
Local Open Scope Z_scope.

(* ===================================================================== *)
(** ** Exceptions and results *)
(* ===================================================================== *)

Inductive exn : Type :=
| TypeError
| KeyError
| IndexError
| AttributeError
| ValueError (msg : string)
| FileNotFoundError (msg : string)
| JSONDecodeError
| OSError
| Raised (name : string).

Inductive res (A : Type) : Type :=
| Ok (a : A)
| Err (e : exn).

Arguments Ok {A} a.
Arguments Err {A} e.

Definition res_bind {A B} (r : res A) (k : A -> res B) : res B :=
  match r with
  | Ok a => k a
  | Err e => Err e
  end.

(** The monad of the code that talks to the outside world: the world is
    threaded through, an exception stops the computation and keeps the world
    reached so far. *)
Definition M (W A : Type) : Type := W -> res A * W.

Definition ret {W A} (a : A) : M W A := fun w => (Ok a, w).

Definition raise {W A} (e : exn) : M W A := fun w => (Err e, w).

Definition bind {W A B} (c : M W A) (k : A -> M W B) : M W B :=
  fun w =>
    match c w with
    | (Ok a, w') => k a w'
    | (Err e, w') => (Err e, w')
    end.

Definition lift {W A} (r : res A) : M W A := fun w => (r, w).

(** [try: c  except Exception: pass] followed by nothing else. *)
Definition try_except_pass {W} (c : M W unit) : M W unit :=
  fun w => (Ok tt, snd (c w)).

(** [try: c  except E: raise e'] for the exceptions selected by [is_E]. *)
Definition try_except_raise {W A} (c : M W A) (is_E : exn -> bool) (e' : exn)
  : M W A :=
  fun w =>
    match c w with
    | (Err e, w') => (Err (if is_E e then e' else e), w')
    | r => r
    end.

Declare Scope py_scope.
Delimit Scope py_scope with py.
Notation "x <- c ;; k" := (bind c (fun x => k))
  (at level 61, c at next level, right associativity) : py_scope.
Notation "' p <- c ;; k" := (bind c (fun x => match x with p => k end))
  (at level 61, p pattern, c at next level, right associativity) : py_scope.
Notation "c ;;; k" := (bind c (fun _ => k))
  (at level 61, right associativity) : py_scope.

(* ===================================================================== *)
(** ** Strings: the [str] methods and [os.path] functions the code calls *)
(* ===================================================================== *)

Module Str.

(** [s.startswith(pre)] *)
Definition startswith (pre s : string) : bool := String.prefix pre s.

(** [needle in s] *)
Fixpoint contains (needle s : string) : bool :=
  String.prefix needle s
  || match s with
     | EmptyString => false
     | String _ r => contains needle r
     end.

(** [s[:n]] and [s[n:]] for [0 <= n]. *)
Fixpoint take (n : nat) (s : string) : string :=
  match n, s with
  | S n', String c r => String c (take n' r)
  | _, _ => EmptyString
  end.

Fixpoint drop (n : nat) (s : string) : string :=
  match n, s with
  | S n', String _ r => drop n' r
  | _, _ => s
  end.

Definition len (s : string) : Z := Z.of_nat (String.length s).

(** [s.endswith(suf)] *)
Definition endswith (suf s : string) : bool :=
  (String.length suf <=? String.length s)%nat
  && String.eqb (drop (String.length s - String.length suf) s) suf.

(** [s.rfind(c)] for a one-character [c]: the last index, or -1. *)
Fixpoint rfind_from (c : ascii) (s : string) (i last : Z) : Z :=
  match s with
  | EmptyString => last
  | String a r => rfind_from c r (i + 1) (if Ascii.eqb a c then i else last)
  end.

Definition rfind (c : ascii) (s : string) : Z := rfind_from c s 0 (-1).

(** [s[i:i+1]] for [0 <= i]: a string of at most one character. *)
Definition at1 (s : string) (i : Z) : string :=
  take 1 (drop (Z.to_nat i) s).

(** [s.lower()] for a string of ASCII characters, where it lowers the
    letters A-Z and nothing else: the lowering of the example worlds. *)
Definition lower_ascii (c : ascii) : ascii :=
  let n := nat_of_ascii c in
  if ((65 <=? n) && (n <=? 90))%nat then ascii_of_nat (n + 32) else c.

Fixpoint lower (s : string) : string :=
  match s with
  | EmptyString => EmptyString
  | String c r => String (lower_ascii c) (lower r)
  end.

(** [s.replace(a, b)] for one-character [a] and [b]. *)
Fixpoint replace_char (a b : ascii) (s : string) : string :=
  match s with
  | EmptyString => EmptyString
  | String c r => String (if Ascii.eqb c a then b else c) (replace_char a b r)
  end.

(** [sep.join(parts)] *)
Fixpoint join (sep : string) (parts : list string) : string :=
  match parts with
  | [] => ""
  | [p] => p
  | p :: rest => p ++ sep ++ join sep rest
  end.

End Str.

Module OsPath.

(** The loop of [genericpath._splitext]:
      while filenameIndex < dotIndex:
          if p[filenameIndex:filenameIndex+1] != extsep:
              return p[:dotIndex], p[dotIndex:]
          filenameIndex += 1
    run for the [n = dotIndex - filenameIndex] iterations it can take;
    falling out of the loop returns [(p, "")]. *)
Fixpoint skip_leading_dots (p : string) (filenameIndex dotIndex : Z)
         (n : nat) : string * string :=
  match n with
  | O => (p, "")
  | S n' =>
      if negb (String.eqb (Str.at1 p filenameIndex) ".")
      then (Str.take (Z.to_nat dotIndex) p, Str.drop (Z.to_nat dotIndex) p)
      else skip_leading_dots p (filenameIndex + 1) dotIndex n'
  end.

(** [os.path.splitext] (posixpath: [sep = '/'], no [altsep]). *)
Definition splitext (p : string) : string * string :=
  let sepIndex := Str.rfind "/"%char p in
  let dotIndex := Str.rfind "."%char p in
  if sepIndex <? dotIndex
  then skip_leading_dots p (sepIndex + 1) dotIndex
                         (Z.to_nat (dotIndex - (sepIndex + 1)))
  else (p, "").

(** [os.path.basename]: [p[p.rfind('/') + 1:]]. *)
Definition basename (p : string) : string :=
  Str.drop (Z.to_nat (Str.rfind "/"%char p + 1)) p.

(** [os.path.join(a, b)] (posixpath, two arguments). *)
Definition join (a b : string) : string :=
  if Str.startswith "/" b then b
  else if String.eqb a "" || Str.endswith "/" a then a ++ b
  else a ++ "/" ++ b.

End OsPath.

(* ===================================================================== *)
(** ** ingest.py *)
(* ===================================================================== *)

Module Ingest.

Inductive parser : Type :=
| PDFParser
| HTMLParser
| YouTubeParser
| DOCXParser
| PPTParser
| TXTParser
| MultimodalParser.

(** [except requests.RequestException]: the class and its subclasses are
    the exceptions named ["RequestException"]. *)
Definition is_request_exception (e : exn) : bool :=
  match e with
  | Raised name => String.eqb name "RequestException"
  | _ => false
  end.

(** [_check_pdf_url(url)], lines 18-33. [head url] stands for
    [requests.head(url, allow_redirects=True)] followed by reading the
    [Content-Type] header of the response: [None] when the response has no
    such header. *)
Definition _check_pdf_url {W : Type} (head : string -> M W (option string))
           (url : string) : M W bool :=
  fun w =>
    match head url w with
    | (Ok header, w') =>
        let content_type :=
          match header with Some v => v | None => "" end in
        (Ok (Str.contains "application/pdf" content_type), w')
    | (Err e, w') =>
        if is_request_exception e then (Ok false, w') else (Err e, w')
    end.

(** What [ingest.py] calls and does not define. [Content] is whatever a
    parser returns. *)
Record Collab (W Content : Type) : Type := {
  (** [requests.head(url, allow_redirects=True)] followed by
      [response.headers.get("Content-Type")]: the request of
      [_check_pdf_url]; it may raise. *)
  requests_head : string -> M W (option string);
  (** [s.lower()]: the lowering of the Python runtime, whose Unicode case
      tables are not part of the sources. *)
  lower : string -> string;
  (** [os.path.exists(path)] *)
  path_exists : string -> W -> bool * W;
  (** [os.makedirs(path, exist_ok=True)] *)
  makedirs : string -> M W unit;
  (** [parser.parse(file_path)] *)
  parse : parser -> string -> M W Content;
  (** [urlparse(url).netloc] *)
  netloc : string -> res string;
  (** [create_lance_dataset(content, output_path, schema=schema)]; the
      [bool] says whether the schema has the [image] field. *)
  create_lance_dataset : Content -> string -> bool -> M W unit
}.

Arguments requests_head {W Content}.
Arguments lower {W Content}.
Arguments path_exists {W Content}.
Arguments makedirs {W Content}.
Arguments parse {W Content}.
Arguments netloc {W Content}.
Arguments create_lance_dataset {W Content}.

Section WithCollab.
Context {W Content : Type} (C : Collab W Content).
Local Open Scope py_scope.

Definition ask (q : W -> bool * W) : M W bool :=
  fun w => let (b, w') := q w in (Ok b, w').

(** The table of the local-file branch. *)
Definition parsers (ext : string) : option parser :=
  if String.eqb ext ".html" then Some HTMLParser
  else if String.eqb ext ".htm" then Some HTMLParser
  else if String.eqb ext ".docx" then Some DOCXParser
  else if String.eqb ext ".pptx" then Some PPTParser
  else if String.eqb ext ".txt" then Some TXTParser
  else None.

Definition is_url (file_path : string) : bool :=
  Str.startswith "http://" file_path || Str.startswith "https://" file_path.

Definition is_youtube (file_path : string) : bool :=
  Str.contains "youtube.com" file_path || Str.contains "youtu.be" file_path.

Definition determine_parser (file_path : string) (multimodal : bool)
  : M W parser :=
  let ext := lower C (snd (OsPath.splitext file_path)) in
  if multimodal then
    if String.eqb ext ".pdf" || String.eqb ext ".docx" || String.eqb ext ".pptx"
    then ret MultimodalParser
    else raise (ValueError
                  ("Unsupported file extension for multimodal parsing: " ++ ext))
  else if String.eqb ext ".pdf" then ret PDFParser
  else if is_url file_path then
    if is_youtube file_path then ret YouTubeParser
    else
      is_pdf <- _check_pdf_url (requests_head C) file_path ;;
      if is_pdf
      then ret (if multimodal then MultimodalParser else PDFParser)
      else ret HTMLParser
  else
    found <- ask (path_exists C file_path) ;;
    if found then
      match parsers ext with
      | Some p => ret p
      | None => raise (ValueError ("Unsupported file extension: " ++ ext))
      end
    else raise (FileNotFoundError ("File not found: " ++ file_path)).

(** [[^&]+] at the start of [s], greedy: the longest run without ['&']. *)
Fixpoint run_not_amp (s : string) : string :=
  match s with
  | EmptyString => EmptyString
  | String c r =>
      if Ascii.eqb c "&"%char then EmptyString else String c (run_not_amp r)
  end.

(** The pattern [(?:v=|\.be/)([^&]+)] anchored at the start of [s]:
    group 1 on a match. *)
Definition match_video_id_here (s : string) : option string :=
  let after (k : nat) :=
    match run_not_amp (Str.drop k s) with
    | EmptyString => None
    | g => Some g
    end in
  match (if Str.startswith "v=" s then after 2%nat else None) with
  | Some g => Some g
  | None => if Str.startswith ".be/" s then after 4%nat else None
  end.

(** [re.search(r"(?:v=|\.be/)([^&]+)", s)]: leftmost match; [None] when
    there is none, else [Some] of group 1. *)
Fixpoint search_video_id (s : string) : option string :=
  match match_video_id_here s with
  | Some g => Some g
  | None =>
      match s with
      | EmptyString => None
      | String _ r => search_video_id r
      end
  end.

(** [not output_name] *)
Definition name_missing (output_name : option string) : bool :=
  match output_name with
  | None => true
  | Some s => String.eqb s ""
  end.

(** Lines 118-136: the output name when the caller gave none. *)
Definition derive_output_name (file_path : string) : res string :=
  if is_url file_path then
    if is_youtube file_path then
      match search_video_id file_path with
      | None => Err AttributeError        (* None.group(1) *)
      | Some video_id => Ok ("youtube_" ++ video_id)
      end
    else
      res_bind (netloc C file_path)
               (fun n => Ok (Str.replace_char "."%char "_"%char n))
  else
    Ok (fst (OsPath.splitext (OsPath.basename file_path))).

Definition process_file (file_path : string) (output_dir : option string)
           (output_name : option string) (multimodal : bool) : M W string :=
  match output_dir with
  | None => raise TypeError                (* os.path.exists(None) *)
  | Some dir =>
      there <- ask (path_exists C dir) ;;
      (if there then ret tt else makedirs C dir) ;;;
      parser <- determine_parser file_path multimodal ;;
      content <- parse C parser file_path ;;
      output_name <- (if name_missing output_name
                      then lift (derive_output_name file_path)
                      else lift (Ok (match output_name with
                                     | Some s => s
                                     | None => ""
                                     end))) ;;
      let output_name := output_name ++ ".lance" in
      let output_path := OsPath.join dir output_name in
      create_lance_dataset C content output_path multimodal ;;;
      ret output_path
  end.

End WithCollab.

End Ingest.


(* ===================================================================== *)
(** ** Python values *)
(* ===================================================================== *)

Set Warnings "-register-all".

(** What [json.load] returns and what the generators hand back. A float is
    the dyadic number [m * 2^e]; a [dict] keeps its keys in insertion order. *)
Inductive pyval : Type :=
| PNone
| PBool (b : bool)
| PInt (z : Z)
| PFloat (m e : Z)
| PStr (s : string)
| PList (l : list pyval)
| PDict (d : list (string * pyval)).

Module Py.

(** [d.get(k)] as an option: the first binding of [k]. *)
Fixpoint dict_get (k : string) (d : list (string * pyval)) : option pyval :=
  match d with
  | [] => None
  | (k', v) :: rest => if String.eqb k' k then Some v else dict_get k rest
  end.

(** [k in d] *)
Definition dict_has (k : string) (d : list (string * pyval)) : bool :=
  match dict_get k d with
  | Some _ => true
  | None => false
  end.

(** [d[k] = v]: an existing key keeps its place, a new one goes last. *)
Fixpoint dict_set (k : string) (v : pyval) (d : list (string * pyval))
  : list (string * pyval) :=
  match d with
  | [] => [(k, v)]
  | (k', v') :: rest =>
      if String.eqb k' k then (k', v) :: rest else (k', v') :: dict_set k v rest
  end.

Definition keys (d : list (string * pyval)) : list string := map fst d.

Definition is_dict (v : pyval) : bool :=
  match v with PDict _ => true | _ => false end.

Definition is_list (v : pyval) : bool :=
  match v with PList _ => true | _ => false end.

(** [isinstance(v, dict) and k in v] *)
Definition is_dict_with (k : string) (v : pyval) : bool :=
  match v with PDict d => dict_has k d | _ => false end.

(** [bool(v)] *)
Definition truthy (v : pyval) : bool :=
  match v with
  | PNone => false
  | PBool b => b
  | PInt z => negb (z =? 0)
  | PFloat m _ => negb (m =? 0)
  | PStr s => negb (String.eqb s "")
  | PList l => match l with [] => false | _ => true end
  | PDict d => match d with [] => false | _ => true end
  end.

(** [len(v)] *)
Definition len (v : pyval) : res Z :=
  match v with
  | PList l => Ok (Z.of_nat (List.length l))
  | PStr s => Ok (Str.len s)
  | PDict d => Ok (Z.of_nat (List.length d))
  | _ => Err TypeError
  end.

Fixpoint chars (s : string) : list pyval :=
  match s with
  | EmptyString => []
  | String c r => PStr (String c EmptyString) :: chars r
  end.

(** [for x in v]: the items of a list, the characters of a string, the keys
    of a dict. *)
Definition iter (v : pyval) : res (list pyval) :=
  match v with
  | PList l => Ok l
  | PStr s => Ok (chars s)
  | PDict d => Ok (map PStr (keys d))
  | _ => Err TypeError
  end.

(** [v[k]] for a string [k] *)
Definition getitem (v : pyval) (k : string) : res pyval :=
  match v with
  | PDict d => match dict_get k d with Some x => Ok x | None => Err KeyError end
  | _ => Err TypeError
  end.

(** [v.get(k, default)] *)
Definition get (v : pyval) (k : string) (default : pyval) : res pyval :=
  match v with
  | PDict d => Ok (match dict_get k d with Some x => x | None => default end)
  | _ => Err AttributeError
  end.

(** [v[0]] *)
Definition first (v : pyval) : res pyval :=
  match v with
  | PList (x :: _) => Ok x
  | PList [] => Err IndexError
  | PStr (String c _) => Ok (PStr (String c EmptyString))
  | PStr EmptyString => Err IndexError
  | PDict _ => Err KeyError
  | _ => Err TypeError
  end.

(** [n > v] for an int [n] *)
Definition int_gt (n : Z) (v : pyval) : res bool :=
  match v with
  | PInt z => Ok (z <? n)
  | PBool b => Ok ((if b then 1 else 0) <? n)
  | PFloat m e => Ok (if 0 <=? e then m * 2 ^ e <? n else m <? n * 2 ^ (- e))
  | _ => Err TypeError
  end.

(** The number of items [seq[:stop]] keeps of [n]: a negative [stop] counts
    from the end, and the result is clamped to [0 .. n]. *)
Definition slice_stop (n : nat) (stop : Z) : nat :=
  let n' := Z.of_nat n in
  let s := if stop <? 0 then Z.max 0 (stop + n') else Z.min stop n' in
  Z.to_nat s.

(** [v[:stop]] *)
Definition slice_to (v : pyval) (stop : pyval) : res pyval :=
  let go (z : Z) :=
    match v with
    | PList l => Ok (PList (firstn (slice_stop (List.length l) z) l))
    | PStr s => Ok (PStr (Str.take (slice_stop (String.length s) z) s))
    | _ => Err TypeError
    end in
  match stop with
  | PNone =>
      match v with
      | PList _ | PStr _ => Ok v
      | _ => Err TypeError
      end
  | PInt z => go z
  | PBool b => go (if b then 1 else 0)
  | _ => Err TypeError
  end.

Definition opt_int (o : option Z) : pyval :=
  match o with Some z => PInt z | None => PNone end.

End Py.


(* ===================================================================== *)
(** ** create.py *)
(* ===================================================================== *)

Module Create.

(** The [LLMClient] object as far as [process_file] looks into it. *)
Record Client : Type := {
  provider : string;
  config : pyval
}.

(** The keyword arguments of [process_file]. *)
Record Args : Type := {
  file_path : string;
  output_dir : string;
  config_path : option string;
  api_base : option string;
  model : option string;
  content_type : string;
  num_pairs : option Z;
  verbose : bool;
  provider_arg : option string;
  chunk_size : option Z;
  chunk_overlap : option Z;
  rolling_summary : bool
}.

(** What [create.py] calls and does not define. [Gen] is a generator
    object. *)
Record Collab (W Gen : Type) : Type := {
  (** [os.makedirs(path, exist_ok=True)] *)
  makedirs : string -> M W unit;
  (** [LLMClient(config_path=, provider=, api_base=, model_name=)] *)
  LLMClient : option string -> option string -> option string -> option string
              -> M W Client;
  (** [load_lance_dataset(path).to_table().to_pylist()] *)
  load_lance_documents : string -> M W pyval;
  (** [open(path, 'r', encoding='utf-8')] and [f.read()] *)
  read_text : string -> M W string;
  (** [open(path, 'r', encoding='utf-8')] and [json.load(f)] *)
  json_load : string -> M W pyval;
  (** [open(path, 'w', encoding='utf-8')] and [json.dump(v, f, indent=2)] *)
  json_dump : pyval -> string -> M W unit;
  (** [get_generation_config(config)] *)
  get_generation_config : pyval -> res pyval;
  (** [convert_to_conversation_format(qa_pairs)], iterated by the caller *)
  convert_to_conversation_format : pyval -> res (list pyval);
  (** The four generator constructors, each on [(client, config_path)]. *)
  QAGenerator : Client -> option string -> M W Gen;
  MultimodalQAGenerator : Client -> option string -> M W Gen;
  VQAGenerator : Client -> option string -> M W Gen;
  COTGenerator : Client -> option string -> M W Gen;
  (** [generator.process_documents(documents, num_pairs=, verbose=,
      rolling_summary=)] *)
  process_documents : Gen -> pyval -> pyval -> bool -> bool -> M W pyval;
  (** [generator.process_dataset(documents=, output_dir=, num_examples=,
      verbose=, base_name=)] of the multimodal generator *)
  mm_process_dataset : Gen -> pyval -> string -> option Z -> bool -> string
                       -> M W string;
  (** [generator.process_dataset(documents=, output_dir=, num_examples=,
      verbose=)] of the VQA generator *)
  vqa_process_dataset : Gen -> pyval -> string -> option Z -> bool -> M W string;
  (** [generator.generate_summary(full_text)] *)
  generate_summary : Gen -> string -> M W pyval;
  (** [generator.process_document(full_text, num_examples=,
      include_simple_steps=)] *)
  process_document : Gen -> string -> pyval -> bool -> M W pyval;
  (** [generator.enhance_with_cot(conv_messages, include_simple_steps=)] *)
  enhance_with_cot : Gen -> pyval -> bool -> M W pyval
}.

Arguments makedirs {W Gen}.
Arguments LLMClient {W Gen}.
Arguments load_lance_documents {W Gen}.
Arguments read_text {W Gen}.
Arguments json_load {W Gen}.
Arguments json_dump {W Gen}.
Arguments get_generation_config {W Gen}.
Arguments convert_to_conversation_format {W Gen}.
Arguments QAGenerator {W Gen}.
Arguments MultimodalQAGenerator {W Gen}.
Arguments VQAGenerator {W Gen}.
Arguments COTGenerator {W Gen}.
Arguments process_documents {W Gen}.
Arguments mm_process_dataset {W Gen}.
Arguments vqa_process_dataset {W Gen}.
Arguments generate_summary {W Gen}.
Arguments process_document {W Gen}.
Arguments enhance_with_cot {W Gen}.

(** Modelled from the spec: [convert_to_conversation_format] of
    [synthetic_data_kit/utils/llm_processing.py], which is not among the
    sources. The spec: "convert each QA pair into a two-message conversation
    (human question, assistant answer) via a fixed mapping rule", a message
    being [{from: ..., value: ...}]. *)
Definition qa_pair_to_conversation (pair : pyval) : res pyval :=
  res_bind (Py.getitem pair "question") (fun q =>
  res_bind (Py.getitem pair "answer") (fun a =>
  Ok (PList [PDict [("from", PStr "human"); ("value", q)];
             PDict [("from", PStr "assistant"); ("value", a)]]))).

Fixpoint res_map {A B} (f : A -> res B) (l : list A) : res (list B) :=
  match l with
  | [] => Ok []
  | x :: rest =>
      res_bind (f x) (fun y =>
      res_bind (res_map f rest) (fun ys => Ok (y :: ys)))
  end.

(** Modelled from the spec: [convert_to_conversation_format], see
    [qa_pair_to_conversation]: one conversation per QA pair, in order. *)
Definition spec_convert_to_conversation_format (qa_pairs : pyval)
  : res (list pyval) :=
  res_bind (Py.iter qa_pairs) (res_map qa_pair_to_conversation).

(** ** The pure steps of the [cot-enhance] branch *)

(** [{"conversations": conv}] *)
Definition wrap_conversation (conv : pyval) : pyval :=
  PDict [("conversations", conv)].

(** [all("conversations" in item for item in data if isinstance(item, dict))] *)
Definition all_dicts_have_conversations (data : list pyval) : bool :=
  forallb (fun item =>
             match item with
             | PDict d => Py.dict_has "conversations" d
             | _ => true
             end) data.

(** [all(isinstance(msg, dict) and "from" in msg for msg in data)] *)
Definition all_messages (data : list pyval) : bool :=
  forallb (Py.is_dict_with "from") data.

(** [if verbose: print(... len(v) ...)]: the message is dropped, the call of
    [len] is kept, since it raises on a value without a length. *)
Definition report_len (verbose : bool) (v : pyval) : res unit :=
  if verbose then res_bind (Py.len v) (fun _ => Ok tt) else Ok tt.

(** Lines 222-250: the pair [(conversations, is_single_conversation)]. *)
Definition normalize (verbose : bool) (convert : pyval -> res (list pyval))
           (data : pyval) : res (pyval * bool) :=
  if Py.is_dict_with "qa_pairs" data then
    res_bind (Py.get data "qa_pairs" (PList [])) (fun qa_pairs =>
    res_bind (report_len verbose qa_pairs) (fun _ =>
    res_bind (convert qa_pairs) (fun conv_list =>
    Ok (PList (map wrap_conversation conv_list), false))))
  else if Py.is_dict_with "conversations" data then
    Ok (PList [data], true)
  else
    match data with
    | PList items =>
        if all_dicts_have_conversations items then Ok (data, false)
        else if all_messages items then Ok (PList [wrap_conversation data], true)
        else Ok (data, false)
    | _ => Ok (data, false)
    end.

(** Lines 206-213: the limit from the argument, else from the configuration. *)
Definition resolve_max_examples (num_pairs : option Z)
           (generation_config : res pyval) : res pyval :=
  match num_pairs with
  | Some n => Ok (PInt n)
  | None =>
      res_bind generation_config (fun gc =>
        Py.get gc "num_cot_enhance_examples" PNone)
  end.

(** Lines 253-256:
      if max_examples is not None and len(conversations) > max_examples:
          conversations = conversations[:max_examples] *)
Definition limit_conversations (max_examples : pyval) (conversations : pyval)
  : res pyval :=
  match max_examples with
  | PNone => Ok conversations
  | _ =>
      res_bind (Py.len conversations) (fun n =>
      res_bind (Py.int_gt n max_examples) (fun more =>
      if more then Py.slice_to conversations max_examples
      else Ok conversations))
  end.

(** Lines 284-289: the nested-list repair. *)
Definition flatten_nested (enhanced_messages : pyval) : pyval :=
  if Py.truthy enhanced_messages && Py.is_list enhanced_messages then
    match Py.first enhanced_messages with
    | Ok head =>
        if Py.truthy enhanced_messages && Py.is_list head
        then head
        else enhanced_messages
    | Err _ => enhanced_messages
    end
  else enhanced_messages.

(** Lines 303-308: what is handed to [json.dump]. *)
Definition dumped (is_single_conversation : bool)
           (enhanced_conversations : list pyval) : pyval :=
  if is_single_conversation
     && (Z.of_nat (List.length enhanced_conversations) =? 1)
  then nth 0 enhanced_conversations PNone
  else PList enhanced_conversations.

(** [" ".join([doc["text"] for doc in documents])] *)
Definition as_str (v : pyval) : res string :=
  match v with PStr s => Ok s | _ => Err TypeError end.

Definition full_text (documents : pyval) : res string :=
  res_bind (Py.iter documents) (fun docs =>
  res_bind (res_map (fun doc => Py.getitem doc "text") docs) (fun texts =>
  res_bind (res_map as_str texts) (fun parts =>
  Ok (Str.join " " parts)))).

(** [config.setdefault('generation', {})[key] = value] *)
Definition override_generation (key : string) (value : Z) (config : pyval)
  : res pyval :=
  match config with
  | PDict d =>
      match Py.dict_get "generation" d with
      | Some (PDict g) =>
          Ok (PDict (Py.dict_set "generation"
                                 (PDict (Py.dict_set key (PInt value) g)) d))
      | Some _ => Err TypeError
      | None =>
          Ok (PDict (Py.dict_set "generation" (PDict [(key, PInt value)]) d))
      end
  | _ => Err AttributeError
  end.

Definition override_opt (key : string) (value : option Z) (c : Client)
  : res Client :=
  match value with
  | None => Ok c
  | Some z =>
      res_bind (override_generation key z (config c)) (fun cfg =>
      Ok {| provider := provider c; config := cfg |})
  end.

(** Lines 185-192: what the verbose report of the [cot] branch evaluates. *)
Definition cot_report (result : pyval) : res unit :=
  res_bind (Py.get result "cot_examples" PNone) (fun examples =>
  if Py.truthy examples then
    res_bind (Py.len examples) (fun n =>
    if 0 <? n then
      res_bind (Py.first examples) (fun first_example =>
      res_bind (Py.get first_example "question" (PStr "")) (fun _ =>
      res_bind (Py.get first_example "reasoning" (PStr "")) (fun reasoning =>
      res_bind (Py.slice_to reasoning (PInt 100)) (fun _ =>
      res_bind (Py.get first_example "answer" (PStr "")) (fun _ =>
      Ok tt)))))
    else Ok tt)
  else Ok tt).

Definition is_json_decode_error (e : exn) : bool :=
  match e with JSONDecodeError => true | _ => false end.

Section WithCollab.
Context {W Gen : Type} (C : Collab W Gen).
Local Open Scope py_scope.

(** [read_json(file_path)] *)
Definition read_json (path : string) : M W string := read_text C path.

(** The backend answers every call of [generator] (it never raises). *)
Definition backend_answers (generator : Gen) : Prop :=
  forall (messages : pyval) (w : W),
    exists (r : pyval) (w' : W),
      enhance_with_cot C generator messages true w = (Ok r, w').

(** Lines 266-297: one turn of the loop, returning the item appended to
    [enhanced_conversations]. *)
Definition enhance_item (generator : Gen) (conversation : pyval) : M W pyval :=
  match conversation with
  | PDict d =>
      match Py.dict_get "conversations" d with
      | Some conv_messages =>
          if negb (Py.is_list conv_messages) then ret conversation
          else
            enhanced_messages <- enhance_with_cot C generator conv_messages true ;;
            let enhanced_messages := flatten_nested enhanced_messages in
            ret (PDict (Py.dict_set "conversations" enhanced_messages d))
      | None => ret conversation
      end
  | _ => ret conversation
  end.

(** Lines 262-297: the loop, [acc] being [enhanced_conversations]. *)
Fixpoint enhance_loop (generator : Gen) (conversations acc : list pyval)
  : M W (list pyval) :=
  match conversations with
  | [] => ret acc
  | conversation :: rest =>
      item <- enhance_item generator conversation ;;
      enhance_loop generator rest (acc ++ [item])
  end.

(** Lines 222-308 up to the value handed to [json.dump]. *)
Definition enhanced_document (generator : Gen) (verbose : bool)
           (max_examples : pyval) (data : pyval) : M W pyval :=
  ' (conversations, is_single_conversation) <-
      lift (normalize verbose (convert_to_conversation_format C) data) ;;
  conversations <- lift (limit_conversations max_examples conversations) ;;
  lift (report_len verbose conversations) ;;;
  items <- lift (Py.iter conversations) ;;
  enhanced_conversations <- enhance_loop generator items [] ;;
  ret (dumped is_single_conversation enhanced_conversations).

(** Lines 57-86: everything before the dispatch on [content_type]. *)
Definition prepare (a : Args) : M W (Client * string * pyval) :=
  makedirs C (output_dir a) ;;;
  client <- LLMClient C (config_path a) (provider_arg a) (api_base a) (model a) ;;
  client <- lift (override_opt "chunk_size" (chunk_size a) client) ;;
  client <- lift (override_opt "overlap" (chunk_overlap a) client) ;;
  let base_name := fst (OsPath.splitext (OsPath.basename (file_path a))) in
  documents <-
    (if Str.endswith ".lance" (file_path a)
     then load_lance_documents C (file_path a)
     else
       text <- read_json (file_path a) ;;
       ret (PList [PDict [("text", PStr text); ("image", PNone)]])) ;;
  ret (client, base_name, documents).

(** Lines 89-103 of the [qa] branch: up to the generated result. *)
Definition qa_generate (a : Args) (client : Client) (documents : pyval)
  : M W pyval :=
  generator <- QAGenerator C client (config_path a) ;;
  num_pairs <-
    match num_pairs a with
    | Some n => ret (PInt n)
    | None =>
        generation_config <- lift (get_generation_config C (config client)) ;;
        lift (Py.get generation_config "num_pairs" (PInt 25))
    end ;;
  process_documents C generator documents num_pairs (verbose a)
                    (rolling_summary a).

Definition qa_output_path (a : Args) (base_name : string) : string :=
  OsPath.join (output_dir a) (base_name ++ "_qa_pairs.json").

Definition qa_branch (a : Args) (client : Client) (base_name : string)
           (documents : pyval) : M W string :=
  result <- qa_generate a client documents ;;
  let output_path := qa_output_path a base_name in
  try_except_pass (json_dump C result output_path) ;;;
  ret output_path.

(** Lines 141-146 of the [summary] branch. *)
Definition summary_generate (a : Args) (client : Client) (documents : pyval)
  : M W pyval :=
  generator <- QAGenerator C client (config_path a) ;;
  text <- lift (full_text documents) ;;
  generate_summary C generator text.

Definition summary_output_path (a : Args) (base_name : string) : string :=
  OsPath.join (output_dir a) (base_name ++ "_summary.json").

Definition summary_branch (a : Args) (client : Client) (base_name : string)
           (documents : pyval) : M W string :=
  summary <- summary_generate a client documents ;;
  let output_path := summary_output_path a base_name in
  json_dump C (PDict [("summary", summary)]) output_path ;;;
  ret output_path.

(** Lines 160-178 of the [cot] branch. *)
Definition cot_generate (a : Args) (client : Client) (documents : pyval)
  : M W pyval :=
  generator <- COTGenerator C client (config_path a) ;;
  text <- lift (full_text documents) ;;
  num_pairs <-
    match num_pairs a with
    | Some n => ret (PInt n)
    | None =>
        generation_config <- lift (get_generation_config C (config client)) ;;
        lift (Py.get generation_config "num_cot_examples" (PInt 5))
    end ;;
  process_document C generator text num_pairs (verbose a).

Definition cot_output_path (a : Args) (base_name : string) : string :=
  OsPath.join (output_dir a) (base_name ++ "_cot_examples.json").

Definition cot_branch (a : Args) (client : Client) (base_name : string)
           (documents : pyval) : M W string :=
  result <- cot_generate a client documents ;;
  let output_path := cot_output_path a base_name in
  json_dump C result output_path ;;;
  (if verbose a then lift (cot_report result) else ret tt) ;;;
  ret output_path.

(** Lines 201-213 of the [cot-enhance] branch: the generator and the limit. *)
Definition cot_enhance_setup (a : Args) (client : Client) : M W (Gen * pyval) :=
  generator <- COTGenerator C client (config_path a) ;;
  read_json (file_path a) ;;;
  max_examples <-
    lift (resolve_max_examples (num_pairs a)
                               (get_generation_config C (config client))) ;;
  ret (generator, max_examples).

(** Lines 217-297 of the [cot-enhance] branch: inside the [try], up to the
    value that is written. *)
Definition cot_enhance_generate (a : Args) (generator : Gen)
           (max_examples : pyval) : M W pyval :=
  data <- json_load C (file_path a) ;;
  enhanced_document generator (verbose a) max_examples data.

Definition enhanced_output_path (a : Args) (base_name : string) : string :=
  OsPath.join (output_dir a) (base_name ++ "_enhanced.json").

Definition not_json_message (a : Args) : string :=
  "Failed to parse " ++ file_path a
  ++ " as JSON. For cot-enhance, input must be a valid JSON file.".

Definition cot_enhance_branch (a : Args) (client : Client) (base_name : string)
  : M W string :=
  ' (generator, max_examples) <- cot_enhance_setup a client ;;
  try_except_raise
    (document <- cot_enhance_generate a generator max_examples ;;
     let output_path := enhanced_output_path a base_name in
     json_dump C document output_path ;;;
     ret output_path)
    is_json_decode_error
    (ValueError (not_json_message a)).

Definition process_file (a : Args) : M W string :=
  ' (client, base_name, documents) <- prepare a ;;
  if String.eqb (content_type a) "qa" then
    qa_branch a client base_name documents
  else if String.eqb (content_type a) "multimodal-qa" then
    generator <- MultimodalQAGenerator C client (config_path a) ;;
    mm_process_dataset C generator documents (output_dir a) (num_pairs a)
                       (verbose a) base_name
  else if String.eqb (content_type a) "vqa" then
    generator <- VQAGenerator C client (config_path a) ;;
    vqa_process_dataset C generator documents (output_dir a) (num_pairs a)
                        (verbose a)
  else if String.eqb (content_type a) "summary" then
    summary_branch a client base_name documents
  else if String.eqb (content_type a) "cot" then
    cot_branch a client base_name documents
  else if String.eqb (content_type a) "cot-enhance" then
    cot_enhance_branch a client base_name
  else raise (ValueError ("Unknown content type: " ++ content_type a)).

End WithCollab.

End Create.


(* ===================================================================== *)
(** ** A small concrete world, to run the two modules on examples *)
(* ===================================================================== *)

Module Example.

Local Open Scope list_scope.

(** What the outside world did, in order. *)
Inductive event : Type :=
| Probed (url : string)
| Checked (path : string)
| MadeDir (path : string)
| Parsed (p : Ingest.parser) (path : string)
| Stored (path : string).

(** An ingest world that records every call: every URL serves an HTML
    page, no path exists, every parser returns the text ["text"]; the paths
    and URLs it is run on are ASCII. *)
Definition recorder : Ingest.Collab (list event) string := {|
  Ingest.requests_head := fun url w => (Ok (Some "text/html"), w ++ [Probed url]);
  Ingest.lower := Str.lower;
  Ingest.path_exists := fun path w => (false, w ++ [Checked path]);
  Ingest.makedirs := fun path w => (Ok tt, w ++ [MadeDir path]);
  Ingest.parse := fun p path w => (Ok "text", w ++ [Parsed p path]);
  Ingest.netloc := fun _ => Ok "example.org";
  Ingest.create_lance_dataset := fun _ path _ w => (Ok tt, w ++ [Stored path])
|}.

(** A create world: a disk that may refuse writes, and the message lists
    the enhancement backend was called on. *)
Record world : Type := {
  writable : bool;
  files : list (string * pyval);
  calls : list pyval
}.

Definition write (v : pyval) (path : string) : M world unit :=
  fun w =>
    if writable w
    then (Ok tt, {| writable := writable w;
                    files := Py.dict_set path v (files w);
                    calls := calls w |})
    else (Err OSError, w).

Definition load (path : string) : M world pyval :=
  fun w =>
    match Py.dict_get path (files w) with
    | Some v => (Ok v, w)
    | None => (Err (FileNotFoundError path), w)
    end.

Definition thought : pyval :=
  PDict [("from", PStr "assistant"); ("value", PStr "Let me think.")].

(** A backend that appends one reasoning message; the generator [true]
    returns its answer wrapped in one more list. *)
Definition think (nested : bool) (messages : pyval) : M world pyval :=
  fun w =>
    let answer :=
      match messages with
      | PList l => PList (l ++ [thought])
      | v => v
      end in
    (Ok (if nested then PList [answer] else answer),
     {| writable := writable w; files := files w;
        calls := calls w ++ [messages] |}).

Definition studio : Create.Collab world bool := {|
  Create.makedirs := fun _ => ret tt;
  Create.LLMClient := fun _ _ _ _ =>
    ret {| Create.provider := "vllm"; Create.config := PDict [] |};
  Create.load_lance_documents := fun _ => ret (PList []);
  Create.read_text := fun _ => ret "";
  Create.json_load := load;
  Create.json_dump := write;
  Create.get_generation_config := fun cfg => Py.get cfg "generation" (PDict []);
  Create.convert_to_conversation_format :=
    Create.spec_convert_to_conversation_format;
  Create.QAGenerator := fun _ _ => ret false;
  Create.MultimodalQAGenerator := fun _ _ => ret false;
  Create.VQAGenerator := fun _ _ => ret false;
  Create.COTGenerator := fun _ _ => ret false;
  Create.process_documents := fun _ _ _ _ _ => ret (PDict [("qa_pairs", PList [])]);
  Create.mm_process_dataset := fun _ _ dir _ _ _ => ret dir;
  Create.vqa_process_dataset := fun _ _ dir _ _ => ret dir;
  Create.generate_summary := fun _ text => ret (PStr text);
  Create.process_document := fun _ _ _ _ =>
    ret (PDict [("cot_examples", PList [])]);
  Create.enhance_with_cot := fun nested messages _ => think nested messages
|}.

Definition human (s : string) : pyval :=
  PDict [("from", PStr "human"); ("value", PStr s)].

Definition assistant (s : string) : pyval :=
  PDict [("from", PStr "assistant"); ("value", PStr s)].

(** [{"id": n, "conversations": [human q, assistant a]}] *)
Definition chat (n : Z) (q a : string) : pyval :=
  PDict [("id", PInt n); ("conversations", PList [human q; assistant a])].

Definition full_disk (fs : list (string * pyval)) : world :=
  {| writable := false; files := fs; calls := [] |}.

Definition disk (fs : list (string * pyval)) : world :=
  {| writable := true; files := fs; calls := [] |}.

(** An ingest world with chosen answers: [found] for every existence
    check, a PDF or an HTML page for every HEAD request. *)
Definition recorder_of (found is_pdf : bool) : Ingest.Collab (list event) string
  := {|
  Ingest.requests_head := fun url w =>
    (Ok (Some (if is_pdf then "application/pdf" else "text/html")),
     w ++ [Probed url]);
  Ingest.lower := Str.lower;
  Ingest.path_exists := fun path w => (found, w ++ [Checked path]);
  Ingest.makedirs := fun path w => (Ok tt, w ++ [MadeDir path]);
  Ingest.parse := fun p path w => (Ok "text", w ++ [Parsed p path]);
  Ingest.netloc := fun _ => Ok "docs.example.org";
  Ingest.create_lance_dataset := fun _ path _ w => (Ok tt, w ++ [Stored path])
|}.

(** The recorder without a network: every HEAD request raises a
    [RequestException]. *)
Definition offline : Ingest.Collab (list event) string := {|
  Ingest.requests_head := fun url w =>
    (Err (Raised "RequestException"), w ++ [Probed url]);
  Ingest.lower := Str.lower;
  Ingest.path_exists := fun path w => (false, w ++ [Checked path]);
  Ingest.makedirs := fun path w => (Ok tt, w ++ [MadeDir path]);
  Ingest.parse := fun p path w => (Ok "text", w ++ [Parsed p path]);
  Ingest.netloc := fun _ => Ok "example.org";
  Ingest.create_lance_dataset := fun _ path _ w => (Ok tt, w ++ [Stored path])
|}.

(** A server that answers every HEAD request with the given header, and
    one that cannot be reached. *)
Definition server (header : option string) (url : string)
  : M (list event) (option string) :=
  fun w => (Ok header, w ++ [Probed url]).

Definition unreachable (url : string) : M (list event) (option string) :=
  fun w => (Err (Raised "RequestException"), w ++ [Probed url]).

(** The message lists the loop hands to the backend: those of the items
    that are objects with a list at [conversations], in order. *)
Fixpoint sent (items : list pyval) : list pyval :=
  match items with
  | [] => []
  | PDict d :: rest =>
      match Py.dict_get "conversations" d with
      | Some (PList msgs) => PList msgs :: sent rest
      | _ => sent rest
      end
  | _ :: rest => sent rest
  end.

(** The studio with a chosen loader and a chosen backend. *)
Definition studio_of (loader : string -> M world pyval)
           (backend : bool -> pyval -> M world pyval)
  : Create.Collab world bool := {|
  Create.makedirs := fun _ => ret tt;
  Create.LLMClient := fun _ _ _ _ =>
    ret {| Create.provider := "vllm"; Create.config := PDict [] |};
  Create.load_lance_documents := fun _ => ret (PList []);
  Create.read_text := fun _ => ret "";
  Create.json_load := loader;
  Create.json_dump := write;
  Create.get_generation_config := fun cfg => Py.get cfg "generation" (PDict []);
  Create.convert_to_conversation_format :=
    Create.spec_convert_to_conversation_format;
  Create.QAGenerator := fun _ _ => ret false;
  Create.MultimodalQAGenerator := fun _ _ => ret false;
  Create.VQAGenerator := fun _ _ => ret false;
  Create.COTGenerator := fun _ _ => ret false;
  Create.process_documents := fun _ _ _ _ _ =>
    ret (PDict [("qa_pairs", PList [])]);
  Create.mm_process_dataset := fun _ _ dir _ _ _ => ret dir;
  Create.vqa_process_dataset := fun _ _ dir _ _ => ret dir;
  Create.generate_summary := fun _ text => ret (PStr text);
  Create.process_document := fun _ _ _ _ =>
    ret (PDict [("cot_examples", PList [])]);
  Create.enhance_with_cot := fun nested messages _ => backend nested messages
|}.

(** The studio on a disk where every file read as text holds [text]. *)
Definition reading_room (text : string) : Create.Collab world bool := {|
  Create.makedirs := fun _ => ret tt;
  Create.LLMClient := fun _ _ _ _ =>
    ret {| Create.provider := "vllm"; Create.config := PDict [] |};
  Create.load_lance_documents := fun _ => ret (PList []);
  Create.read_text := fun _ => ret text;
  Create.json_load := load;
  Create.json_dump := write;
  Create.get_generation_config := fun cfg => Py.get cfg "generation" (PDict []);
  Create.convert_to_conversation_format :=
    Create.spec_convert_to_conversation_format;
  Create.QAGenerator := fun _ _ => ret false;
  Create.MultimodalQAGenerator := fun _ _ => ret false;
  Create.VQAGenerator := fun _ _ => ret false;
  Create.COTGenerator := fun _ _ => ret false;
  Create.process_documents := fun _ _ _ _ _ =>
    ret (PDict [("qa_pairs", PList [])]);
  Create.mm_process_dataset := fun _ _ dir _ _ _ => ret dir;
  Create.vqa_process_dataset := fun _ _ dir _ _ => ret dir;
  Create.generate_summary := fun _ text => ret (PStr text);
  Create.process_document := fun _ _ _ _ =>
    ret (PDict [("cot_examples", PList [])]);
  Create.enhance_with_cot := fun nested messages _ => think nested messages
|}.

(** A backend that answers short conversations and raises on a
    conversation of more than two messages. *)
Definition impatient (e : exn) (nested : bool) (messages : pyval)
  : M world pyval :=
  match messages with
  | PList (_ :: _ :: _ :: _) => raise e
  | _ => think nested messages
  end.

(** A loader for a file that is not JSON. *)
Definition garbled (path : string) : M world pyval := raise JSONDecodeError.

Definition job (content_type : string) (n : option Z) : Create.Args := {|
  Create.file_path := "data/talk.json";
  Create.output_dir := "out";
  Create.config_path := None;
  Create.api_base := None;
  Create.model := None;
  Create.content_type := content_type;
  Create.num_pairs := n;
  Create.verbose := false;
  Create.provider_arg := None;
  Create.chunk_size := None;
  Create.chunk_overlap := None;
  Create.rolling_summary := false
|}.

End Example.


(* ===================================================================== *)
(** ** Properties of ingest.py *)
(* ===================================================================== *)

Section IngestProperties.
Context {W Content : Type} (C : Ingest.Collab W Content).

Lemma not_pdf_eqb (ext : string) :
  ext <> ".pdf" -> String.eqb ext ".pdf" = false.
Proof. intro H. apply String.eqb_neq. exact H. Qed.

Lemma contains_false_inv (needle : string) (c : ascii) (s : string) :
  Str.contains needle (String c s) = false ->
  String.prefix needle (String c s) = false /\ Str.contains needle s = false.
Proof.
  intro H. change (Str.contains needle (String c s))
    with (String.prefix needle (String c s) || Str.contains needle s) in H.
  apply orb_false_iff in H. exact H.
Qed.

Lemma match_video_id_here_none (s : string) :
  String.prefix "v=" s = false ->
  String.prefix ".be/" s = false ->
  Ingest.match_video_id_here s = None.
Proof.
  intros Hv Hb. unfold Ingest.match_video_id_here, Str.startswith.
  rewrite Hv, Hb. reflexivity.
Qed.

(** No occurrence of ["v="] or [".be/"] anywhere: the pattern cannot match. *)
Lemma search_video_id_none (s : string) :
  Str.contains "v=" s = false ->
  Str.contains ".be/" s = false ->
  Ingest.search_video_id s = None.
Proof.
  induction s as [| c s IH]; intros Hv Hb.
  - reflexivity.
  - apply contains_false_inv in Hv. apply contains_false_inv in Hb.
    destruct Hv as [Hv Hv']. destruct Hb as [Hb Hb'].
    change (Ingest.search_video_id (String c s))
      with (match Ingest.match_video_id_here (String c s) with
            | Some g => Some g
            | None => Ingest.search_video_id s
            end).
    rewrite (match_video_id_here_none _ Hv Hb). apply IH; assumption.
Qed.

(** C9. A path or URL whose lowercased extension is [.pdf], with
    [multimodal = false], gets the PDF parser at once: the result does not
    depend on the collaborators and the world is left as it was, so neither
    the existence check nor the network probe has run. In particular a
    local [.pdf] path that does not exist yields the PDF parser, not
    [FileNotFoundError]. *)
Theorem pdf_extension_selects_pdf_parser (file_path : string) (w : W) :
  Ingest.lower C (snd (OsPath.splitext file_path)) = ".pdf" ->
  Ingest.determine_parser C file_path false w = (Ok Ingest.PDFParser, w).
Proof.
  intro Hext. unfold Ingest.determine_parser. rewrite Hext. reflexivity.
Qed.

(** C7, amended. An [http://] or [https://] URL that contains
    [youtube.com] or [youtu.be] and whose lowercased extension is not
    [.pdf], with [multimodal = false], gets the YouTube parser whatever the
    probe would answer: the probe is not run and the world is unchanged. *)
Theorem youtube_url_selects_youtube_parser (file_path : string) (w : W) :
  Ingest.is_url file_path = true ->
  Ingest.is_youtube file_path = true ->
  Ingest.lower C (snd (OsPath.splitext file_path)) <> ".pdf" ->
  Ingest.determine_parser C file_path false w = (Ok Ingest.YouTubeParser, w).
Proof.
  intros Hurl Hyt Hext. unfold Ingest.determine_parser.
  rewrite (not_pdf_eqb _ Hext), Hurl, Hyt. reflexivity.
Qed.

(** C10. For a YouTube URL with neither ["v="] nor [".be/"] in it and no
    output name given, the name derivation fails with [AttributeError]
    (the search finds nothing and [.group(1)] is called on [None]); when the
    steps before it succeed (output directory, parser selection, parsing),
    [process_file] as a whole raises that [AttributeError] and nothing is
    stored. *)
Theorem youtube_url_without_video_id_fails
    (file_path dir : string) (output_name : option string)
    (multimodal : bool) (content : Content) (w w' : W) :
  Ingest.is_url file_path = true ->
  Ingest.is_youtube file_path = true ->
  Str.contains "v=" file_path = false ->
  Str.contains ".be/" file_path = false ->
  Ingest.name_missing output_name = true ->
  bind (Ingest.ask (Ingest.path_exists C dir)) (fun there =>
  bind (if there then ret tt else Ingest.makedirs C dir) (fun _ =>
  bind (Ingest.determine_parser C file_path multimodal) (fun parser =>
  Ingest.parse C parser file_path))) w = (Ok content, w') ->
  Ingest.search_video_id file_path = None
  /\ Ingest.derive_output_name C file_path = Err AttributeError
  /\ Ingest.process_file C file_path (Some dir) output_name multimodal w
     = (Err AttributeError, w').
Proof.
  intros Hurl Hyt Hv Hb Hname Hsteps.
  pose proof (search_video_id_none _ Hv Hb) as Hnone.
  assert (Hderive : Ingest.derive_output_name C file_path = Err AttributeError).
  { unfold Ingest.derive_output_name. rewrite Hurl, Hyt, Hnone. reflexivity. }
  repeat split; [exact Hnone | exact Hderive |].
  unfold Ingest.process_file. rewrite Hname, Hderive.
  unfold bind in *.
  destruct (Ingest.ask (Ingest.path_exists C dir) w) as [[there | e] w1];
    [| discriminate].
  destruct ((if there then ret tt else Ingest.makedirs C dir) w1)
    as [[[] | e] w2]; [| discriminate].
  destruct (Ingest.determine_parser C file_path multimodal w2)
    as [[parser | e] w3]; [| discriminate].
  rewrite Hsteps. reflexivity.
Qed.

End IngestProperties.

(** C9 on a run: a missing local file with an upper-case [.PDF] extension;
    the recorder saw no call. *)
Lemma pdf_extension_selects_pdf_parser_witness :
  Ingest.determine_parser Example.recorder "missing/report.PDF" false []
  = (Ok Ingest.PDFParser, []).
Proof.
  apply (pdf_extension_selects_pdf_parser Example.recorder
           "missing/report.PDF" []).
  reflexivity.
Defined.

(** C7 as stated fails: a YouTube URL that ends in [.pdf] gets the PDF
    parser. *)
Lemma youtube_pdf_url_gets_pdf_parser :
  Ingest.is_url "https://www.youtube.com/docs/guide.pdf" = true
  /\ Str.contains "youtube.com" "https://www.youtube.com/docs/guide.pdf" = true
  /\ Ingest.determine_parser Example.recorder
       "https://www.youtube.com/docs/guide.pdf" false []
     = (Ok Ingest.PDFParser, [])
  /\ Ingest.PDFParser <> Ingest.YouTubeParser.
Proof.
  repeat split; try reflexivity. discriminate.
Qed.

Lemma youtube_url_selects_youtube_parser_witness :
  Ingest.determine_parser Example.recorder
    "https://www.youtube.com/watch?v=abc" false []
  = (Ok Ingest.YouTubeParser, []).
Proof.
  apply (youtube_url_selects_youtube_parser Example.recorder
           "https://www.youtube.com/watch?v=abc" []).
  - reflexivity.
  - reflexivity.
  - vm_compute. discriminate.
Defined.

(** C10 on a run: a channel URL. *)
Lemma youtube_url_without_video_id_fails_witness :
  Ingest.process_file Example.recorder "https://www.youtube.com/@channel"
    (Some "out") None false []
  = (Err AttributeError,
     [Example.Checked "out"; Example.MadeDir "out";
      Example.Parsed Ingest.YouTubeParser "https://www.youtube.com/@channel"]).
Proof.
  apply (youtube_url_without_video_id_fails Example.recorder
           "https://www.youtube.com/@channel" "out" None false "text" []);
    reflexivity.
Defined.


(* ===================================================================== *)
(** ** Dictionaries *)
(* ===================================================================== *)

Lemma dict_get_set_same (k : string) (v : pyval) (d : list (string * pyval)) :
  Py.dict_get k (Py.dict_set k v d) = Some v.
Proof.
  induction d as [| [k' v'] d IH]; simpl.
  - rewrite String.eqb_refl. reflexivity.
  - destruct (String.eqb k' k) eqn:E; simpl; rewrite E; [reflexivity | exact IH].
Qed.

Lemma dict_get_set_other (k k' : string) (v : pyval)
      (d : list (string * pyval)) :
  k <> k' -> Py.dict_get k (Py.dict_set k' v d) = Py.dict_get k d.
Proof.
  intro Hne. induction d as [| [k0 v0] d IH]; simpl.
  - destruct (String.eqb k' k) eqn:E; [| reflexivity].
    apply String.eqb_eq in E. congruence.
  - destruct (String.eqb k0 k') eqn:E; simpl.
    + apply String.eqb_eq in E. subst k0.
      destruct (String.eqb k' k) eqn:E'; [| reflexivity].
      apply String.eqb_eq in E'. congruence.
    + rewrite IH. reflexivity.
Qed.

Lemma keys_set_present (k : string) (v : pyval) (d : list (string * pyval)) :
  Py.dict_has k d = true -> Py.keys (Py.dict_set k v d) = Py.keys d.
Proof.
  unfold Py.dict_has, Py.keys. induction d as [| [k' v'] d IH]; simpl.
  - discriminate.
  - destruct (String.eqb k' k) eqn:E; simpl; [reflexivity |].
    intro H. rewrite (IH H). reflexivity.
Qed.

Lemma dict_has_get (k : string) (d : list (string * pyval)) :
  Py.dict_has k d = true -> exists v, Py.dict_get k d = Some v.
Proof.
  unfold Py.dict_has. destruct (Py.dict_get k d) as [v |].
  - intros _. exists v. reflexivity.
  - discriminate.
Qed.

(* ===================================================================== *)
(** ** The enhancement loop *)
(* ===================================================================== *)

Section LoopProperties.
Context {W Gen : Type} (C : Create.Collab W Gen) (generator : Gen).

(** Starting from [acc] is starting from the empty list and prepending
    [acc] afterwards. *)
Lemma enhance_loop_acc (items acc : list pyval) (w : W) :
  Create.enhance_loop C generator items acc w
  = match Create.enhance_loop C generator items [] w with
    | (Ok out, w') => (Ok (acc ++ out)%list, w')
    | (Err e, w') => (Err e, w')
    end.
Proof.
  revert acc w. induction items as [| c rest IH]; intros acc w; simpl.
  - unfold ret. rewrite app_nil_r. reflexivity.
  - unfold bind. destruct (Create.enhance_item C generator c w) as [[item | e] w1];
      [| reflexivity].
    rewrite (IH (acc ++ [item])%list w1), (IH [item] w1).
    destruct (Create.enhance_loop C generator rest [] w1) as [[out | e] w2];
      [| reflexivity].
    simpl. rewrite <- app_assoc. reflexivity.
Qed.

(** The loop over [xs ++ ys] is the loop over [xs] followed by the loop
    over [ys]. *)
Lemma enhance_loop_app (xs ys acc : list pyval) (w : W) :
  Create.enhance_loop C generator (xs ++ ys) acc w
  = bind (Create.enhance_loop C generator xs acc)
         (fun out => Create.enhance_loop C generator ys out) w.
Proof.
  revert acc w. induction xs as [| c xs IH]; intros acc w; simpl.
  - reflexivity.
  - unfold bind in *.
    destruct (Create.enhance_item C generator c w) as [[item | e] w1];
      [| reflexivity].
    apply IH.
Qed.

(** A loop that returns has appended one item per conversation. *)
Lemma enhance_loop_length (items acc out : list pyval) (w w' : W) :
  Create.enhance_loop C generator items acc w = (Ok out, w') ->
  List.length out = (List.length acc + List.length items)%nat.
Proof.
  revert acc w. induction items as [| c rest IH]; intros acc w; simpl.
  - unfold ret. intro H. inversion H. lia.
  - unfold bind. destruct (Create.enhance_item C generator c w) as [[item | e] w1];
      [| discriminate].
    intro H. apply IH in H. rewrite H, length_app. simpl. lia.
Qed.

Lemma enhance_item_returns (c : pyval) (w : W) :
  Create.backend_answers C generator ->
  exists item w', Create.enhance_item C generator c w = (Ok item, w').
Proof.
  intro Hans. unfold Create.enhance_item.
  destruct c as [| b | z | m e | s | l | d]; try (eexists; eexists; reflexivity).
  destruct (Py.dict_get "conversations" d) as [msgs |];
    [| eexists; eexists; reflexivity].
  destruct (negb (Py.is_list msgs)); [eexists; eexists; reflexivity |].
  unfold bind. destruct (Hans msgs w) as [r [w' Hr]]. rewrite Hr.
  eexists; eexists; reflexivity.
Qed.

(** With a backend that answers, the loop returns. *)
Lemma enhance_loop_returns (items acc : list pyval) (w : W) :
  Create.backend_answers C generator ->
  exists out w', Create.enhance_loop C generator items acc w = (Ok out, w').
Proof.
  intro Hans. revert acc w.
  induction items as [| c rest IH]; intros acc w; simpl.
  - eexists; eexists; reflexivity.
  - unfold bind. destruct (enhance_item_returns c w Hans) as [item [w1 Hi]].
    rewrite Hi. apply IH.
Qed.

(** An item whose [conversations] field is not a list is appended as it is,
    and the backend is not called. *)
Lemma enhance_item_malformed (d : list (string * pyval)) (v : pyval) (w : W) :
  Py.dict_get "conversations" d = Some v ->
  Py.is_list v = false ->
  Create.enhance_item C generator (PDict d) w = (Ok (PDict d), w).
Proof.
  intros Hget Hlist. unfold Create.enhance_item. rewrite Hget, Hlist.
  reflexivity.
Qed.

(** An item with a message list, when the backend answers [answer]. *)
Lemma enhance_item_enhanced (d : list (string * pyval)) (msgs : list pyval)
      (answer : pyval) (w w' : W) :
  Py.dict_get "conversations" d = Some (PList msgs) ->
  Create.enhance_with_cot C generator (PList msgs) true w = (Ok answer, w') ->
  Create.enhance_item C generator (PDict d) w
  = (Ok (PDict (Py.dict_set "conversations" (Create.flatten_nested answer) d)),
     w').
Proof.
  intros Hget Hans. unfold Create.enhance_item. rewrite Hget. simpl.
  unfold bind. rewrite Hans. reflexivity.
Qed.

End LoopProperties.

(* ===================================================================== *)
(** ** Properties of the normaliser, the limit and the writer *)
(* ===================================================================== *)

Lemma enhance_loop_extends {W Gen : Type} (C : Create.Collab W Gen)
      (generator : Gen) (items acc out : list pyval) (w w' : W) :
  Create.enhance_loop C generator items acc w = (Ok out, w') ->
  exists tail, out = (acc ++ tail)%list
               /\ List.length tail = List.length items.
Proof.
  intro H. rewrite enhance_loop_acc in H.
  destruct (Create.enhance_loop C generator items [] w) as [[tail | e] w1] eqn:E;
    [| discriminate].
  inversion H; subst. exists tail. split; [reflexivity |].
  apply enhance_loop_length in E. simpl in E. exact E.
Qed.

Lemma firstn_slice_stop (n : Z) (items : list pyval) :
  0 <= n -> n < Z.of_nat (List.length items) ->
  Py.slice_stop (List.length items) n = Z.to_nat n.
Proof.
  intros H0 Hlt. unfold Py.slice_stop.
  destruct (n <? 0) eqn:E; [apply Z.ltb_lt in E; lia |].
  rewrite Z.min_l by lia. reflexivity.
Qed.

(** A non-negative limit keeps the first [n] conversations of a list. *)
Lemma limit_conversations_list (n : Z) (items : list pyval) :
  0 <= n ->
  Create.limit_conversations (PInt n) (PList items)
  = Ok (PList (firstn (Z.to_nat n) items)).
Proof.
  intro H0. unfold Create.limit_conversations. simpl.
  destruct (n <? Z.of_nat (List.length items)) eqn:E.
  - apply Z.ltb_lt in E. rewrite (firstn_slice_stop n items H0 E). reflexivity.
  - apply Z.ltb_ge in E. rewrite firstn_all2 by lia. reflexivity.
Qed.

Lemma res_map_pairs (pairs : list pyval) (qas : list (pyval * pyval)) :
  Forall2 (fun pair qa =>
             Py.getitem pair "question" = Ok (fst qa)
             /\ Py.getitem pair "answer" = Ok (snd qa)) pairs qas ->
  Create.res_map Create.qa_pair_to_conversation pairs
  = Ok (map (fun qa =>
               PList [PDict [("from", PStr "human"); ("value", fst qa)];
                      PDict [("from", PStr "assistant"); ("value", snd qa)]])
            qas).
Proof.
  induction 1 as [| pair qa pairs qas [Hq Ha] _ IH]; simpl.
  - reflexivity.
  - unfold Create.qa_pair_to_conversation at 1. rewrite Hq, Ha. simpl.
    rewrite IH. reflexivity.
Qed.

(** C1. An object with the key [qa_pairs] is always handled by the first
    branch, whether or not it also has the key [conversations]: the
    conversations are the converted QA pairs, each wrapped as
    [{"conversations": conv}], and [is_single_conversation] is false; with
    the converter of the spec each pair (question [q], answer [a]) becomes
    the two messages human [q], assistant [a]; and the result is the same
    for every object that differs from the given one only at the key
    [conversations]. *)
Theorem qa_pairs_take_priority
    (verbose : bool) (d : list (string * pyval)) (qa_pairs : pyval) :
  Py.dict_get "qa_pairs" d = Some qa_pairs ->
  (forall convert,
      Create.normalize verbose convert (PDict d)
      = res_bind (Create.report_len verbose qa_pairs) (fun _ =>
        res_bind (convert qa_pairs) (fun conv_list =>
          Ok (PList (map Create.wrap_conversation conv_list), false))))
  /\ (forall pairs qas,
         qa_pairs = PList pairs ->
         Forall2 (fun pair qa =>
                    Py.getitem pair "question" = Ok (fst qa)
                    /\ Py.getitem pair "answer" = Ok (snd qa)) pairs qas ->
         Create.normalize verbose Create.spec_convert_to_conversation_format
                          (PDict d)
         = Ok (PList
                 (map (fun qa =>
                         Create.wrap_conversation
                           (PList [PDict [("from", PStr "human");
                                          ("value", fst qa)];
                                   PDict [("from", PStr "assistant");
                                          ("value", snd qa)]]))
                      qas),
               false))
  /\ (forall convert d',
         (forall k, k <> "conversations" ->
                    Py.dict_get k d' = Py.dict_get k d) ->
         Create.normalize verbose convert (PDict d')
         = Create.normalize verbose convert (PDict d)).
Proof.
  intro Hget.
  assert (Hfirst : forall convert d0,
             Py.dict_get "qa_pairs" d0 = Some qa_pairs ->
             Create.normalize verbose convert (PDict d0)
             = res_bind (Create.report_len verbose qa_pairs) (fun _ =>
               res_bind (convert qa_pairs) (fun conv_list =>
                 Ok (PList (map Create.wrap_conversation conv_list), false)))).
  { intros convert d0 H0. unfold Create.normalize. simpl.
    unfold Py.dict_has. rewrite H0. reflexivity. }
  split; [| split].
  - intro convert. apply Hfirst. exact Hget.
  - intros pairs qas Hqa Hall. rewrite (Hfirst _ d Hget). subst qa_pairs.
    unfold Create.spec_convert_to_conversation_format.
    replace (Create.report_len verbose (PList pairs)) with (Ok tt)
      by (destruct verbose; reflexivity).
    simpl.
    rewrite (res_map_pairs pairs qas Hall). simpl. rewrite map_map.
    reflexivity.
  - intros convert d' Hsame. rewrite (Hfirst convert d Hget).
    apply Hfirst. rewrite Hsame; [exact Hget | discriminate].
Qed.

Section CreateProperties.
Context {W Gen : Type} (C : Create.Collab W Gen) (generator : Gen).

(** C3. When the backend answers with a non-empty list whose first element
    is a list, the conversation is stored with that first element as its
    [conversations] field: one level of nesting is removed, whatever the
    inner list holds. The turn of the loop returns normally and the loop
    goes on with the remaining conversations. *)
Theorem nested_answer_is_unwrapped_once
    (d : list (string * pyval)) (msgs inner others rest acc : list pyval)
    (w w' : W) :
  Py.dict_get "conversations" d = Some (PList msgs) ->
  Create.enhance_with_cot C generator (PList msgs) true w
  = (Ok (PList (PList inner :: others)), w') ->
  Create.flatten_nested (PList (PList inner :: others)) = PList inner
  /\ Create.enhance_item C generator (PDict d) w
     = (Ok (PDict (Py.dict_set "conversations" (PList inner) d)), w')
  /\ Create.enhance_loop C generator (PDict d :: rest) acc w
     = Create.enhance_loop C generator rest
         (acc ++ [PDict (Py.dict_set "conversations" (PList inner) d)]) w'.
Proof.
  intros Hget Hans.
  pose proof (enhance_item_enhanced C generator d msgs _ w w' Hget Hans) as Hitem.
  change (Create.flatten_nested (PList (PList inner :: others)))
    with (PList inner) in Hitem.
  split; [reflexivity | split; [exact Hitem |]].
  cbn [Create.enhance_loop]. unfold bind. rewrite Hitem. reflexivity.
Qed.

(** C4. An item whose [conversations] field is not a list is appended
    unchanged without calling the backend, and the loop goes on: the loop
    over [pre ++ item :: post] is the loop over [pre], then the item as it
    is, then the loop over [post]. With a backend that answers, the loop
    returns one item per conversation, the malformed one in its place. For
    a batch of three with item 1 malformed, the output is item 0 enhanced,
    item 1 unchanged, item 2 enhanced. *)
Theorem malformed_item_passes_through
    (d : list (string * pyval)) (v : pyval) (pre post acc : list pyval)
    (w : W) :
  Py.dict_get "conversations" d = Some v ->
  Py.is_list v = false ->
  Create.enhance_item C generator (PDict d) w = (Ok (PDict d), w)
  /\ Create.enhance_loop C generator (pre ++ PDict d :: post) acc w
     = bind (Create.enhance_loop C generator pre acc)
            (fun out => Create.enhance_loop C generator post (out ++ [PDict d]))
            w
  /\ (Create.backend_answers C generator ->
      exists out w',
        Create.enhance_loop C generator (pre ++ PDict d :: post) [] w
        = (Ok out, w')
        /\ List.length out = (List.length pre + 1 + List.length post)%nat
        /\ nth_error out (List.length pre) = Some (PDict d))
  /\ (forall d0 msgs0 answer0 d2 msgs2 answer2 w1 w2,
         Py.dict_get "conversations" d0 = Some (PList msgs0) ->
         Py.dict_get "conversations" d2 = Some (PList msgs2) ->
         Create.enhance_with_cot C generator (PList msgs0) true w
         = (Ok answer0, w1) ->
         Create.enhance_with_cot C generator (PList msgs2) true w1
         = (Ok answer2, w2) ->
         Create.enhance_loop C generator [PDict d0; PDict d; PDict d2] [] w
         = (Ok [PDict (Py.dict_set "conversations"
                                   (Create.flatten_nested answer0) d0);
                PDict d;
                PDict (Py.dict_set "conversations"
                                   (Create.flatten_nested answer2) d2)],
            w2)).
Proof.
  intros Hget Hlist.
  assert (Hitem : forall w0,
             Create.enhance_item C generator (PDict d) w0 = (Ok (PDict d), w0)).
  { intro w0. apply (enhance_item_malformed C generator d v w0 Hget Hlist). }
  assert (Happ : forall acc0 w0,
             Create.enhance_loop C generator (pre ++ PDict d :: post) acc0 w0
             = bind (Create.enhance_loop C generator pre acc0)
                    (fun out =>
                       Create.enhance_loop C generator post (out ++ [PDict d]))
                    w0).
  { intros acc0 w0. rewrite enhance_loop_app. unfold bind.
    destruct (Create.enhance_loop C generator pre acc0 w0) as [[out | e] w1];
      [| reflexivity].
    cbn [Create.enhance_loop]. unfold bind. rewrite Hitem. reflexivity. }
  split; [apply Hitem | split; [apply Happ | split]].
  - intro Hans. rewrite Happ. unfold bind.
    destruct (enhance_loop_returns C generator pre [] w Hans)
      as [out1 [w1 H1]].
    rewrite H1.
    destruct (enhance_loop_returns C generator post (out1 ++ [PDict d])%list
                                   w1 Hans) as [out [w' H2]].
    exists out, w'. split; [exact H2 |].
    pose proof (enhance_loop_length C generator _ _ _ _ _ H1) as L1.
    simpl in L1.
    destruct (enhance_loop_extends C generator _ _ _ _ _ H2) as [tail [Ho Lt]].
    subst out. split.
    + rewrite !length_app. simpl. lia.
    + rewrite <- app_assoc. rewrite nth_error_app2 by lia.
      rewrite L1, Nat.sub_diag. reflexivity.
  - intros d0 msgs0 answer0 d2 msgs2 answer2 w1 w2 Hg0 Hg2 Ha0 Ha2.
    cbn [Create.enhance_loop]. unfold bind.
    rewrite (enhance_item_enhanced C generator d0 msgs0 answer0 w w1 Hg0 Ha0).
    rewrite Hitem.
    rewrite (enhance_item_enhanced C generator d2 msgs2 answer2 w1 w2 Hg2 Ha2).
    reflexivity.
Qed.

(** C5. An enhanced conversation is the input object with the value at
    [conversations] replaced by the (repaired) answer of the backend: the
    keys and their order are the same, and every other key has the value it
    had. *)
Theorem enhancement_replaces_only_conversations
    (d : list (string * pyval)) (msgs : list pyval) (answer : pyval)
    (w w' : W) :
  Py.dict_get "conversations" d = Some (PList msgs) ->
  Create.enhance_with_cot C generator (PList msgs) true w = (Ok answer, w') ->
  exists d',
    Create.enhance_item C generator (PDict d) w = (Ok (PDict d'), w')
    /\ Py.dict_get "conversations" d' = Some (Create.flatten_nested answer)
    /\ (forall k, k <> "conversations" -> Py.dict_get k d' = Py.dict_get k d)
    /\ Py.keys d' = Py.keys d.
Proof.
  intros Hget Hans.
  exists (Py.dict_set "conversations" (Create.flatten_nested answer) d).
  split; [apply (enhance_item_enhanced C generator d msgs answer w w' Hget Hans) |].
  split; [apply dict_get_set_same |].
  split.
  - intros k Hk. apply dict_get_set_other. exact Hk.
  - apply keys_set_present. unfold Py.dict_has. rewrite Hget. reflexivity.
Qed.

End CreateProperties.

(** Run [process_file] up to the branch chosen by [content_type]. *)
Ltac enter_branch Hprep Hct :=
  unfold Create.process_file; unfold bind at 1; rewrite Hprep, Hct;
  cbv beta iota delta [String.eqb Ascii.eqb Bool.eqb].

Section PipelineProperties.
Context {W Gen : Type} (C : Create.Collab W Gen) (generator : Gen)
        (verbose : bool).

(** Once the input is normalised to a list and the limit has kept [kept],
    the document is the loop over [kept], written according to the flag
    that the normaliser returned. *)
Lemma enhanced_document_of_list
      (data max_examples : pyval) (items kept : list pyval) (single : bool)
      (w : W) :
  Create.normalize verbose (Create.convert_to_conversation_format C) data
  = Ok (PList items, single) ->
  Create.limit_conversations max_examples (PList items) = Ok (PList kept) ->
  Create.enhanced_document C generator verbose max_examples data w
  = bind (Create.enhance_loop C generator kept [])
         (fun out => ret (Create.dumped single out)) w.
Proof.
  intros Hnorm Hlimit. unfold Create.enhanced_document.
  unfold bind at 1. unfold lift at 1. rewrite Hnorm.
  unfold bind at 1. unfold lift at 1. rewrite Hlimit.
  unfold bind at 1. unfold lift at 1.
  replace (Create.report_len verbose (PList kept)) with (Ok tt)
    by (destruct verbose; reflexivity).
  unfold bind at 1. unfold lift at 1. simpl. reflexivity.
Qed.

Lemma normalize_single_object (convert : pyval -> res (list pyval))
      (d : list (string * pyval)) :
  Py.dict_has "conversations" d = true ->
  Py.dict_has "qa_pairs" d = false ->
  Create.normalize verbose convert (PDict d) = Ok (PList [PDict d], true).
Proof.
  intros Hc Hq. unfold Create.normalize. simpl. rewrite Hq, Hc. reflexivity.
Qed.

Lemma normalize_list_of_objects (convert : pyval -> res (list pyval))
      (items : list pyval) :
  Create.all_dicts_have_conversations items = true ->
  Create.normalize verbose convert (PList items) = Ok (PList items, false).
Proof.
  intro H. unfold Create.normalize. simpl. rewrite H. reflexivity.
Qed.

Lemma limit_keeps_single (max_examples x : pyval) :
  max_examples = PNone \/ (exists z, max_examples = PInt z /\ 1 <= z) ->
  Create.limit_conversations max_examples (PList [x]) = Ok (PList [x]).
Proof.
  intros [-> | [z [-> Hz]]]; [reflexivity |].
  unfold Create.limit_conversations. simpl.
  destruct (z <? 1) eqn:E; [apply Z.ltb_lt in E; lia | reflexivity].
Qed.

Lemma enhance_item_gives_object (d : list (string * pyval)) (item : pyval)
      (w w' : W) :
  Create.enhance_item C generator (PDict d) w = (Ok item, w') ->
  Py.is_dict item = true.
Proof.
  unfold Create.enhance_item.
  destruct (Py.dict_get "conversations" d) as [msgs |].
  - destruct (negb (Py.is_list msgs)).
    + unfold ret. intro H. inversion H. reflexivity.
    + unfold bind.
      destruct (Create.enhance_with_cot C generator msgs true w)
        as [[answer | e] w1]; [| discriminate].
      unfold ret. intro H. inversion H. reflexivity.
  - unfold ret. intro H. inversion H. reflexivity.
Qed.

Lemma single_item_document (x : pyval) (w : W) :
  bind (Create.enhance_loop C generator [x] [])
       (fun out => ret (Create.dumped true out)) w
  = Create.enhance_item C generator x w.
Proof.
  cbn [Create.enhance_loop]. unfold bind.
  destruct (Create.enhance_item C generator x w) as [[item | e] w1];
    reflexivity.
Qed.

(** C2, amended. A bare object with the key [conversations] and without
    the key [qa_pairs] is normalised with the flag set; when the limit is
    absent or at least 1 the document written is that one object after its
    turn of the loop, an object and not a list. A list whose dict elements
    all have the key [conversations] is normalised with the flag unset and
    the document written is the list of the loop's items, one per
    conversation kept by the limit (all of them without a limit). The flag
    reaches the writer as the normaliser set it; the writer unwraps exactly
    when the flag is set and there is exactly one enhanced item. *)
Theorem output_shape_follows_input_shape
    (d : list (string * pyval)) (items : list pyval) (w : W) :
  Py.dict_has "conversations" d = true ->
  Py.dict_has "qa_pairs" d = false ->
  Create.all_dicts_have_conversations items = true ->
  let convert := Create.convert_to_conversation_format C in
  let keeps_one max_examples :=
    max_examples = PNone \/ (exists z, max_examples = PInt z /\ 1 <= z) in
  (Create.normalize verbose convert (PDict d) = Ok (PList [PDict d], true)
   /\ (forall max_examples, keeps_one max_examples ->
         Create.enhanced_document C generator verbose max_examples (PDict d) w
         = Create.enhance_item C generator (PDict d) w)
   /\ (forall item w',
         Create.enhance_item C generator (PDict d) w = (Ok item, w') ->
         Py.is_dict item = true)
   /\ (Create.backend_answers C generator ->
       forall max_examples, keeps_one max_examples ->
         exists item w',
           Create.enhanced_document C generator verbose max_examples (PDict d) w
           = (Ok item, w')
           /\ Py.is_dict item = true))
  /\ (Create.normalize verbose convert (PList items) = Ok (PList items, false)
      /\ Create.enhanced_document C generator verbose PNone (PList items) w
         = bind (Create.enhance_loop C generator items [])
                (fun out => ret (PList out)) w
      /\ (forall n, 0 <= n ->
            Create.enhanced_document C generator verbose (PInt n) (PList items) w
            = bind (Create.enhance_loop C generator
                      (firstn (Z.to_nat n) items) [])
                   (fun out => ret (PList out)) w)
      /\ (Create.backend_answers C generator ->
          exists out w',
            Create.enhanced_document C generator verbose PNone (PList items) w
            = (Ok (PList out), w')
            /\ List.length out = List.length items)
      /\ (Create.backend_answers C generator ->
          forall n, 0 <= n ->
            exists out w',
              Create.enhanced_document C generator verbose (PInt n)
                                       (PList items) w
              = (Ok (PList out), w')
              /\ List.length out
                 = Nat.min (Z.to_nat n) (List.length items)))
  /\ ((forall x, Create.dumped true [x] = x)
      /\ (forall out, Create.dumped false out = PList out)
      /\ (forall out, List.length out <> 1%nat ->
                      Create.dumped true out = PList out)).
Proof.
  intros Hc Hq Hall convert keeps_one.
  pose proof (normalize_single_object convert d Hc Hq) as Hn1.
  pose proof (normalize_list_of_objects convert items Hall) as Hn2.
  assert (Hone : forall max_examples, keeps_one max_examples ->
            Create.enhanced_document C generator verbose max_examples (PDict d) w
            = Create.enhance_item C generator (PDict d) w).
  { intros max_examples Hk.
    rewrite (enhanced_document_of_list (PDict d) max_examples
               [PDict d] [PDict d] true w Hn1 (limit_keeps_single _ _ Hk)).
    apply single_item_document. }
  assert (Hlist : forall max_examples kept,
            Create.limit_conversations max_examples (PList items)
            = Ok (PList kept) ->
            Create.enhanced_document C generator verbose max_examples (PList items) w
            = bind (Create.enhance_loop C generator kept [])
                   (fun out => ret (PList out)) w).
  { intros max_examples kept Hk.
    apply (enhanced_document_of_list (PList items) max_examples
             items kept false w Hn2 Hk). }
  split; [| split].
  - split; [exact Hn1 | split; [exact Hone | split]].
    + intros item w'. apply enhance_item_gives_object.
    + intros Hans max_examples Hk. rewrite (Hone max_examples Hk).
      destruct (enhance_item_returns C generator (PDict d) w Hans)
        as [item [w' Hi]].
      exists item, w'. split; [exact Hi |].
      apply (enhance_item_gives_object d item w w' Hi).
  - split; [exact Hn2 | split; [| split; [| split]]].
    + apply Hlist. reflexivity.
    + intros n Hn. apply Hlist. apply limit_conversations_list. exact Hn.
    + intro Hans. rewrite (Hlist PNone items eq_refl). unfold bind.
      destruct (enhance_loop_returns C generator items [] w Hans)
        as [out [w' Ho]].
      rewrite Ho. exists out, w'. split; [reflexivity |].
      apply enhance_loop_length in Ho. simpl in Ho. exact Ho.
    + intros Hans n Hn.
      rewrite (Hlist (PInt n) _ (limit_conversations_list n items Hn)).
      unfold bind.
      destruct (enhance_loop_returns C generator
                  (firstn (Z.to_nat n) items) [] w Hans) as [out [w' Ho]].
      rewrite Ho. exists out, w'. split; [reflexivity |].
      apply enhance_loop_length in Ho. simpl in Ho.
      rewrite Ho. apply length_firstn.
  - split; [reflexivity | split; [reflexivity |]].
    intros out Hlen. unfold Create.dumped. simpl.
    destruct (Z.of_nat (List.length out) =? 1) eqn:E; [| reflexivity].
    apply Z.eqb_eq in E. lia.
Qed.

(** C8. Once the result is generated, a failing write in the [qa] branch is
    swallowed and [process_file] returns the output path; a failing write
    in the [summary], [cot] and [cot-enhance] branches makes [process_file]
    raise: the same exception, except that [cot-enhance] turns a
    [JSONDecodeError] into its [ValueError]. *)
Theorem write_failure_policy
    (a : Create.Args) (client : Create.Client) (base_name : string)
    (documents : pyval) (e : exn) (w w1 w2 w3 : W) :
  Create.prepare C a w = (Ok (client, base_name, documents), w1) ->
  (Create.content_type a = "qa" ->
   forall result,
     Create.qa_generate C a client documents w1 = (Ok result, w2) ->
     Create.json_dump C result (Create.qa_output_path a base_name) w2
     = (Err e, w3) ->
     Create.process_file C a w = (Ok (Create.qa_output_path a base_name), w3))
  /\ (Create.content_type a = "summary" ->
      forall summary,
        Create.summary_generate C a client documents w1 = (Ok summary, w2) ->
        Create.json_dump C (PDict [("summary", summary)])
                         (Create.summary_output_path a base_name) w2
        = (Err e, w3) ->
        Create.process_file C a w = (Err e, w3))
  /\ (Create.content_type a = "cot" ->
      forall result,
        Create.cot_generate C a client documents w1 = (Ok result, w2) ->
        Create.json_dump C result (Create.cot_output_path a base_name) w2
        = (Err e, w3) ->
        Create.process_file C a w = (Err e, w3))
  /\ (Create.content_type a = "cot-enhance" ->
      forall gen max_examples document w1',
        Create.cot_enhance_setup C a client w1
        = (Ok (gen, max_examples), w1') ->
        Create.cot_enhance_generate C a gen max_examples w1'
        = (Ok document, w2) ->
        Create.json_dump C document (Create.enhanced_output_path a base_name) w2
        = (Err e, w3) ->
        Create.process_file C a w
        = (Err (if Create.is_json_decode_error e
                then ValueError (Create.not_json_message a) else e), w3)).
Proof.
  intro Hprep. repeat split.
  - intros Hct result Hgen Hdump. enter_branch Hprep Hct.
    unfold Create.qa_branch, bind. rewrite Hgen.
    unfold try_except_pass. rewrite Hdump. reflexivity.
  - intros Hct summary Hgen Hdump. enter_branch Hprep Hct.
    unfold Create.summary_branch, bind. rewrite Hgen, Hdump. reflexivity.
  - intros Hct result Hgen Hdump. enter_branch Hprep Hct.
    unfold Create.cot_branch, bind. rewrite Hgen, Hdump. reflexivity.
  - intros Hct gen max_examples document w1' Hset Hgen Hdump. enter_branch Hprep Hct. unfold Create.cot_enhance_branch, bind. rewrite Hset.
    unfold try_except_raise, bind. rewrite Hgen, Hdump. reflexivity.
Qed.

End PipelineProperties.

Section LimitProperties.
Context {W Gen : Type} (C : Create.Collab W Gen) (generator : Gen).

(** The [cot-enhance] branch of [process_file] once the limit is resolved
    to [limit] and the normalised list is cut to [kept]: the loop runs on
    [kept], its output is written, the path is returned. *)
Lemma cot_enhance_runs_on_kept
      (a : Create.Args) (client : Create.Client) (base_name text : string)
      (documents data limit : pyval) (items kept : list pyval)
      (single : bool) (w w1 w2 w3 w4 : W) :
  Create.content_type a = "cot-enhance" ->
  Create.prepare C a w = (Ok (client, base_name, documents), w1) ->
  Create.COTGenerator C client (Create.config_path a) w1
  = (Ok generator, w2) ->
  Create.read_json C (Create.file_path a) w2 = (Ok text, w3) ->
  Create.resolve_max_examples (Create.num_pairs a)
    (Create.get_generation_config C (Create.config client)) = Ok limit ->
  Create.json_load C (Create.file_path a) w3 = (Ok data, w4) ->
  Create.normalize (Create.verbose a) (Create.convert_to_conversation_format C)
                   data
  = Ok (PList items, single) ->
  Create.limit_conversations limit (PList items) = Ok (PList kept) ->
  Create.process_file C a w
  = try_except_raise
      (bind (Create.enhance_loop C generator kept []) (fun out =>
       bind (Create.json_dump C (Create.dumped single out)
               (Create.enhanced_output_path a base_name)) (fun _ =>
       ret (Create.enhanced_output_path a base_name))))
      Create.is_json_decode_error
      (ValueError (Create.not_json_message a)) w4.
Proof.
  intros Hct Hprep Hgen Hread Hres Hload Hnorm Hlimit.
  enter_branch Hprep Hct.
  unfold Create.cot_enhance_branch, Create.cot_enhance_setup.
  unfold bind at 1. unfold bind at 1. rewrite Hgen.
  unfold bind at 1. rewrite Hread.
  unfold bind at 1. unfold lift at 1. rewrite Hres. unfold ret at 1.
  unfold try_except_raise, Create.cot_enhance_generate.
  unfold bind at 1. unfold bind at 1. rewrite Hload.
  rewrite (enhanced_document_of_list C generator (Create.verbose a) data
             limit items kept single w4 Hnorm Hlimit).
  unfold bind.
  destruct (Create.enhance_loop C generator kept [] w4) as [[out | e] w5];
    [| reflexivity].
  unfold ret.
  destruct (Create.json_dump C (Create.dumped single out)
              (Create.enhanced_output_path a base_name) w5)
    as [[[] | e] w6]; reflexivity.
Qed.

(** C6, amended. In the [cot-enhance] branch of [process_file] the limit is
    the explicit [num_pairs] if there is one, else the value configured
    under [num_cot_enhance_examples], else none. A limit [n >= 0] cuts the
    normalised list of conversations to its first [n], in order, once and
    before the loop: the loop runs on that prefix only, so the backend is
    called on kept conversations alone, and what is written is made of
    them. Without a limit the loop runs on the whole list. *)
Theorem limit_keeps_first_examples
    (a : Create.Args) (client : Create.Client) (base_name text : string)
    (documents data : pyval) (items : list pyval) (single : bool) (n : Z)
    (w w1 w2 w3 w4 : W) :
  0 <= n ->
  Create.content_type a = "cot-enhance" ->
  Create.prepare C a w = (Ok (client, base_name, documents), w1) ->
  Create.COTGenerator C client (Create.config_path a) w1
  = (Ok generator, w2) ->
  Create.read_json C (Create.file_path a) w2 = (Ok text, w3) ->
  Create.json_load C (Create.file_path a) w3 = (Ok data, w4) ->
  Create.normalize (Create.verbose a) (Create.convert_to_conversation_format C)
                   data
  = Ok (PList items, single) ->
  let enhance_and_write kept :=
    try_except_raise
      (bind (Create.enhance_loop C generator kept []) (fun out =>
       bind (Create.json_dump C (Create.dumped single out)
               (Create.enhanced_output_path a base_name)) (fun _ =>
       ret (Create.enhanced_output_path a base_name))))
      Create.is_json_decode_error
      (ValueError (Create.not_json_message a)) w4 in
  (Create.num_pairs a = Some n ->
   Create.process_file C a w = enhance_and_write (firstn (Z.to_nat n) items))
  /\ (Create.num_pairs a = None ->
      forall g,
        Create.get_generation_config C (Create.config client) = Ok (PDict g) ->
        (Py.dict_get "num_cot_enhance_examples" g = Some (PInt n) ->
         Create.process_file C a w
         = enhance_and_write (firstn (Z.to_nat n) items))
        /\ (Py.dict_get "num_cot_enhance_examples" g = None ->
            Create.process_file C a w = enhance_and_write items))
  /\ Create.limit_conversations (PInt n) (PList items)
     = Ok (PList (firstn (Z.to_nat n) items))
  /\ List.length (firstn (Z.to_nat n) items)
     = Nat.min (Z.to_nat n) (List.length items)
  /\ Create.enhanced_document C generator (Create.verbose a) (PInt n) data w4
     = bind (Create.enhance_loop C generator (firstn (Z.to_nat n) items) [])
            (fun out => ret (Create.dumped single out)) w4.
Proof.
  intros Hn Hct Hprep Hgen Hread Hload Hnorm enhance_and_write.
  pose proof (limit_conversations_list n items Hn) as Hcut.
  split; [| split; [| split; [| split]]].
  - intro Hnum.
    apply (cot_enhance_runs_on_kept a client base_name text documents data
             (PInt n) items _ single w w1 w2 w3 w4
             Hct Hprep Hgen Hread); try assumption.
    rewrite Hnum. reflexivity.
  - intros Hnum g Hcfg. split.
    + intro Hkey.
      apply (cot_enhance_runs_on_kept a client base_name text documents data
               (PInt n) items _ single w w1 w2 w3 w4
               Hct Hprep Hgen Hread); try assumption.
      rewrite Hnum, Hcfg. simpl. rewrite Hkey. reflexivity.
    + intro Hkey.
      apply (cot_enhance_runs_on_kept a client base_name text documents data
               PNone items items single w w1 w2 w3 w4
               Hct Hprep Hgen Hread); try assumption; try reflexivity.
      rewrite Hnum, Hcfg. simpl. rewrite Hkey. reflexivity.
  - exact Hcut.
  - apply length_firstn.
  - apply (enhanced_document_of_list C generator (Create.verbose a) data
           (PInt n) items _ single w4 Hnorm Hcut).
Qed.

End LimitProperties.

(* ===================================================================== *)
(** ** The properties on runs of the example world *)
(* ===================================================================== *)

Lemma studio_answers (nested : bool) :
  Create.backend_answers Example.studio nested.
Proof.
  intros messages w. eexists. eexists. reflexivity.
Qed.

(** C1 on an object that has both keys: one QA pair, one conversation of
    two messages, flag unset; dropping the key [conversations] changes
    nothing. *)
Lemma qa_pairs_take_priority_witness :
  let pair := PDict [("question", PStr "Why?"); ("answer", PStr "Because.")] in
  let d := [("qa_pairs", PList [pair]); ("conversations", PStr "ignored")] in
  Create.normalize false Create.spec_convert_to_conversation_format (PDict d)
  = Ok (PList [Create.wrap_conversation
                 (PList [PDict [("from", PStr "human"); ("value", PStr "Why?")];
                         PDict [("from", PStr "assistant");
                                ("value", PStr "Because.")]])],
        false)
  /\ Create.normalize false Create.spec_convert_to_conversation_format
       (PDict [("qa_pairs", PList [pair])])
     = Create.normalize false Create.spec_convert_to_conversation_format (PDict d).
Proof.
  intros pair d.
  destruct (qa_pairs_take_priority false d (PList [pair]) eq_refl) as [_ [H2 H3]].
  split.
  - apply (H2 [pair] [(PStr "Why?", PStr "Because.")] eq_refl).
    constructor; [split; reflexivity | constructor].
  - apply H3. intros k Hk. unfold d. cbn [Py.dict_get].
    destruct (String.eqb "qa_pairs" k); [reflexivity |].
    destruct (String.eqb "conversations" k) eqn:E; [| reflexivity].
    apply String.eqb_eq in E. congruence.
Defined.

(** C2 as stated fails. A bare object with the key [conversations] that
    also has the key [qa_pairs] is written as a list; and a bare
    conversation object with the limit 0 is written as the empty list,
    although the normaliser set the flag. *)
Lemma single_object_is_written_as_list :
  let talk := PList [Example.human "q"; Example.assistant "a"] in
  let pair := PDict [("question", PStr "Why?"); ("answer", PStr "Because.")] in
  let both := PDict [("conversations", talk); ("qa_pairs", PList [pair])] in
  let data := PDict [("conversations", talk)] in
  (Py.is_dict_with "conversations" both = true
   /\ Create.process_file Example.studio (Example.job "cot-enhance" None)
        (Example.disk [("data/talk.json", both)])
      = (Ok "out/talk_enhanced.json",
         {| Example.writable := true;
            Example.files :=
              [("data/talk.json", both);
               ("out/talk_enhanced.json",
                PList [PDict [("conversations",
                               PList [Example.human "Why?";
                                      Example.assistant "Because.";
                                      Example.thought])]])];
            Example.calls := [PList [Example.human "Why?";
                                     Example.assistant "Because."]] |}))
  /\ (Py.is_dict_with "conversations" data = true
      /\ Create.normalize false Create.spec_convert_to_conversation_format data
         = Ok (PList [data], true)
      /\ Create.process_file Example.studio (Example.job "cot-enhance" (Some 0))
           (Example.disk [("data/talk.json", data)])
         = (Ok "out/talk_enhanced.json",
            Example.disk [("data/talk.json", data);
                          ("out/talk_enhanced.json", PList [])]))
  /\ Py.is_dict (PList []) = false.
Proof.
  repeat split; reflexivity.
Qed.

Lemma output_shape_follows_input_shape_witness :
  let one := [("id", PInt 7);
              ("conversations",
               PList [Example.human "q"; Example.assistant "a"])] in
  let two := [Example.chat 1 "q1" "a1"; Example.chat 2 "q2" "a2"] in
  Create.enhanced_document Example.studio false false (PInt 1) (PDict one)
    (Example.disk [])
  = Create.enhance_item Example.studio false (PDict one) (Example.disk [])
  /\ (exists out w',
         Create.enhanced_document Example.studio false false PNone (PList two)
           (Example.disk [])
         = (Ok (PList out), w')
         /\ List.length out = 2%nat).
Proof.
  intros one two.
  destruct (output_shape_follows_input_shape Example.studio false false one two
              (Example.disk []) eq_refl eq_refl eq_refl)
    as [[_ [H1 _]] [[_ [_ [_ [H2 _]]]] _]].
  split.
  - apply H1. right. exists 1. split; [reflexivity | lia].
  - apply H2. apply studio_answers.
Defined.

(** C3 on a run: the backend wraps its answer in one more list. *)
Lemma nested_answer_is_unwrapped_once_witness :
  Create.enhance_item Example.studio true
    (PDict [("conversations", PList [Example.human "q"])]) (Example.disk [])
  = (Ok (PDict [("conversations",
                 PList [Example.human "q"; Example.thought])]),
     {| Example.writable := true; Example.files := [];
        Example.calls := [PList [Example.human "q"]] |}).
Proof.
  apply (nested_answer_is_unwrapped_once Example.studio true
           [("conversations", PList [Example.human "q"])]
           [Example.human "q"] [Example.human "q"; Example.thought] [] [] []
           (Example.disk []) _ eq_refl eq_refl).
Defined.

(** C4 on a run: three items, the middle one with a string for its
    [conversations]. *)
Lemma malformed_item_passes_through_witness :
  let bad := PDict [("conversations", PStr "oops")] in
  Create.enhance_loop Example.studio false
    [PDict [("conversations", PList [Example.human "a"])]; bad;
     PDict [("conversations", PList [Example.human "b"])]] []
    (Example.disk [])
  = (Ok [PDict [("conversations", PList [Example.human "a"; Example.thought])];
         bad;
         PDict [("conversations", PList [Example.human "b"; Example.thought])]],
     {| Example.writable := true; Example.files := [];
        Example.calls := [PList [Example.human "a"];
                          PList [Example.human "b"]] |}).
Proof.
  intro bad.
  destruct (malformed_item_passes_through Example.studio false
              [("conversations", PStr "oops")] (PStr "oops") [] [] []
              (Example.disk []) eq_refl eq_refl) as [_ [_ [_ H]]].
  apply (H [("conversations", PList [Example.human "a"])] [Example.human "a"]
           (PList [Example.human "a"; Example.thought])
           [("conversations", PList [Example.human "b"])] [Example.human "b"]
           (PList [Example.human "b"; Example.thought])
           _ _ eq_refl eq_refl eq_refl eq_refl).
Defined.

(** C5 on a run: the [id] and [source] fields come through. *)
Lemma enhancement_replaces_only_conversations_witness :
  let d := [("id", PInt 7);
            ("conversations", PList [Example.human "q"]);
            ("source", PStr "forum")] in
  exists d',
    Create.enhance_item Example.studio false (PDict d) (Example.disk [])
    = (Ok (PDict d'),
       {| Example.writable := true; Example.files := [];
          Example.calls := [PList [Example.human "q"]] |})
    /\ Py.dict_get "conversations" d'
       = Some (Create.flatten_nested
                 (PList [Example.human "q"; Example.thought]))
    /\ (forall k, k <> "conversations" -> Py.dict_get k d' = Py.dict_get k d)
    /\ Py.keys d' = Py.keys d.
Proof.
  intro d.
  apply (enhancement_replaces_only_conversations Example.studio false d
           [Example.human "q"] (PList [Example.human "q"; Example.thought])
           (Example.disk []) _ eq_refl eq_refl).
Defined.

(** C6 as stated fails for a negative limit: with [num_pairs = -2] and
    five conversations the list is cut to its first three, which are
    enhanced and written. *)
Lemma negative_limit_keeps_all_but_the_last :
  let five := [Example.chat 1 "q1" "a1"; Example.chat 2 "q2" "a2";
               Example.chat 3 "q3" "a3"; Example.chat 4 "q4" "a4";
               Example.chat 5 "q5" "a5"] in
  let enhanced n q a :=
    PDict [("id", PInt n);
           ("conversations",
            PList [Example.human q; Example.assistant a; Example.thought])] in
  Create.resolve_max_examples (Some (-2)) (Ok (PDict [])) = Ok (PInt (-2))
  /\ Create.limit_conversations (PInt (-2)) (PList five)
     = Ok (PList [Example.chat 1 "q1" "a1"; Example.chat 2 "q2" "a2";
                  Example.chat 3 "q3" "a3"])
  /\ Create.process_file Example.studio (Example.job "cot-enhance" (Some (-2)))
       (Example.disk [("data/talk.json", PList five)])
     = (Ok "out/talk_enhanced.json",
        {| Example.writable := true;
           Example.files :=
             [("data/talk.json", PList five);
              ("out/talk_enhanced.json",
               PList [enhanced 1 "q1" "a1"; enhanced 2 "q2" "a2";
                      enhanced 3 "q3" "a3"])];
           Example.calls :=
             [PList [Example.human "q1"; Example.assistant "a1"];
              PList [Example.human "q2"; Example.assistant "a2"];
              PList [Example.human "q3"; Example.assistant "a3"]] |}).
Proof.
  repeat split; reflexivity.
Qed.

(** C6 on a run: five conversations, [num_pairs = 2]: two calls of the
    backend, two conversations written. *)
Lemma limit_keeps_first_examples_witness :
  let five := [Example.chat 1 "q1" "a1"; Example.chat 2 "q2" "a2";
               Example.chat 3 "q3" "a3"; Example.chat 4 "q4" "a4";
               Example.chat 5 "q5" "a5"] in
  let enhanced n q a :=
    PDict [("id", PInt n);
           ("conversations",
            PList [Example.human q; Example.assistant a; Example.thought])] in
  Create.process_file Example.studio (Example.job "cot-enhance" (Some 2))
    (Example.disk [("data/talk.json", PList five)])
  = (Ok "out/talk_enhanced.json",
     {| Example.writable := true;
        Example.files :=
          [("data/talk.json", PList five);
           ("out/talk_enhanced.json",
            PList [enhanced 1 "q1" "a1"; enhanced 2 "q2" "a2"])];
        Example.calls :=
          [PList [Example.human "q1"; Example.assistant "a1"];
           PList [Example.human "q2"; Example.assistant "a2"]] |})
  /\ Create.limit_conversations (PInt 2) (PList five)
     = Ok (PList [Example.chat 1 "q1" "a1"; Example.chat 2 "q2" "a2"]).
Proof.
  intros five enhanced.
  destruct (limit_keeps_first_examples Example.studio false
              (Example.job "cot-enhance" (Some 2))
              {| Create.provider := "vllm"; Create.config := PDict [] |}
              "talk" ""
              (PList [PDict [("text", PStr ""); ("image", PNone)]])
              (PList five) five false 2
              (Example.disk [("data/talk.json", PList five)])
              (Example.disk [("data/talk.json", PList five)])
              (Example.disk [("data/talk.json", PList five)])
              (Example.disk [("data/talk.json", PList five)])
              (Example.disk [("data/talk.json", PList five)])
              ltac:(lia) eq_refl eq_refl eq_refl eq_refl eq_refl eq_refl)
    as [H1 [_ [H2 _]]].
  split; [rewrite (H1 eq_refl); reflexivity | exact H2].
Defined.

(** C8 on runs with a disk that refuses every write. *)
Lemma write_failure_policy_witness :
  let data := Example.chat 1 "q" "a" in
  let w := Example.full_disk [("data/talk.json", data)] in
  Create.process_file Example.studio (Example.job "qa" None) w
  = (Ok "out/talk_qa_pairs.json", w)
  /\ Create.process_file Example.studio (Example.job "summary" None) w
     = (Err OSError, w)
  /\ Create.process_file Example.studio (Example.job "cot" None) w
     = (Err OSError, w)
  /\ Create.process_file Example.studio (Example.job "cot-enhance" None) w
     = (Err OSError,
        {| Example.writable := false;
           Example.files := [("data/talk.json", data)];
           Example.calls := [PList [Example.human "q"; Example.assistant "a"]]
        |}).
Proof.
  intros data w.
  split; [| split; [| split]].
  - destruct (write_failure_policy Example.studio (Example.job "qa" None)
                _ _ _ OSError w w w w eq_refl) as [H _].
    apply (H eq_refl _ eq_refl eq_refl).
  - destruct (write_failure_policy Example.studio (Example.job "summary" None)
                _ _ _ OSError w w w w eq_refl) as [_ [H _]].
    apply (H eq_refl _ eq_refl eq_refl).
  - destruct (write_failure_policy Example.studio (Example.job "cot" None)
                _ _ _ OSError w w w w eq_refl) as [_ [_ [H _]]].
    apply (H eq_refl _ eq_refl eq_refl).
  - set (w' := {| Example.writable := false;
                  Example.files := [("data/talk.json", data)];
                  Example.calls :=
                    [PList [Example.human "q"; Example.assistant "a"]] |}).
    destruct (write_failure_policy Example.studio
                (Example.job "cot-enhance" None)
                _ _ _ OSError w w w' w' eq_refl) as [_ [_ [_ H]]].
    apply (H eq_refl _ _ _ w eq_refl eq_refl eq_refl).
Defined.


(* ===================================================================== *)
(** ** Further properties of ingest.py *)
(* ===================================================================== *)

Lemma append_empty_r (s : string) : s ++ "" = s.
Proof.
  induction s as [| c s IH]; simpl; [reflexivity | rewrite IH; reflexivity].
Qed.

Lemma take_drop (n : nat) (s : string) : Str.take n s ++ Str.drop n s = s.
Proof.
  revert s. induction n as [| n IH]; intros [| c s]; simpl; try reflexivity.
  rewrite IH. reflexivity.
Qed.

Lemma skip_leading_dots_joins (p : string) (i dotIndex : Z) (n : nat) :
  fst (OsPath.skip_leading_dots p i dotIndex n)
  ++ snd (OsPath.skip_leading_dots p i dotIndex n) = p.
Proof.
  revert i. induction n as [| n IH]; intro i; simpl.
  - apply append_empty_r.
  - destruct (negb (String.eqb (Str.at1 p i) ".")); simpl.
    + apply take_drop.
    + apply IH.
Qed.

(** [os.path.splitext] only cuts: root and extension give the path back. *)
Lemma splitext_joins (p : string) :
  fst (OsPath.splitext p) ++ snd (OsPath.splitext p) = p.
Proof.
  unfold OsPath.splitext.
  destruct (Str.rfind "/" p <? Str.rfind "." p).
  - apply skip_leading_dots_joins.
  - apply append_empty_r.
Qed.

Lemma prefix_of_append (needle post : string) :
  String.prefix needle (needle ++ post) = true.
Proof.
  induction needle as [| c needle IH].
  - destruct post; reflexivity.
  - change (match Ascii.ascii_dec c c with
            | left _ => String.prefix needle (needle ++ post)
            | right _ => false
            end = true).
    destruct (Ascii.ascii_dec c c) as [_ | Hne]; [exact IH | congruence].
Qed.

Lemma contains_cons (needle : string) (c : ascii) (s : string) :
  Str.contains needle s = true -> Str.contains needle (String c s) = true.
Proof.
  intro H.
  change (Str.contains needle (String c s))
    with (String.prefix needle (String c s) || Str.contains needle s).
  rewrite H. apply orb_true_r.
Qed.

(** [needle in pre + needle + post] *)
Lemma contains_in_the_middle (needle pre post : string) :
  Str.contains needle (pre ++ needle ++ post) = true.
Proof.
  induction pre as [| c pre IH].
  - change ("" ++ needle ++ post) with (needle ++ post).
    pose proof (prefix_of_append needle post) as Hp.
    destruct (needle ++ post) as [| a s].
    + change (String.prefix needle "" || false = true).
      rewrite Hp. reflexivity.
    + change (String.prefix needle (String a s)
              || Str.contains needle s = true).
      rewrite Hp. reflexivity.
  - change (String c pre ++ needle ++ post)
      with (String c (pre ++ needle ++ post)).
    apply contains_cons. exact IH.
Qed.

Lemma prefix_amp (c : ascii) (s : string) :
  String.prefix "&" (String c s) = Ascii.eqb c "&".
Proof.
  change (String.prefix "&" (String c s))
    with (match Ascii.ascii_dec "&" c with
          | left _ => String.prefix "" s
          | right _ => false
          end).
  destruct (Ascii.ascii_dec "&" c) as [<- | Hne].
  - destruct s; reflexivity.
  - symmetry. apply Ascii.eqb_neq. congruence.
Qed.

Lemma contains_amp_cons (c : ascii) (s : string) :
  Str.contains "&" (String c s) = Ascii.eqb c "&" || Str.contains "&" s.
Proof.
  change (Str.contains "&" (String c s))
    with (String.prefix "&" (String c s) || Str.contains "&" s).
  rewrite prefix_amp. reflexivity.
Qed.

Lemma run_not_amp_clean (s : string) :
  Str.contains "&" (Ingest.run_not_amp s) = false.
Proof.
  induction s as [| c s IH]; simpl; [reflexivity |].
  destruct (Ascii.eqb c "&") eqn:E; [reflexivity |].
  rewrite contains_amp_cons, E, IH. reflexivity.
Qed.

(** The run stops at the first ['&'] or at the end. *)
Lemma run_not_amp_stops (id rest : string) :
  Str.contains "&" id = false ->
  rest = "" \/ String.prefix "&" rest = true ->
  Ingest.run_not_amp (id ++ rest) = id.
Proof.
  intros Hid Hrest. induction id as [| c id IH].
  - simpl. destruct Hrest as [-> | Hamp]; [reflexivity |].
    destruct rest as [| r rest]; [reflexivity |].
    rewrite prefix_amp in Hamp. simpl. rewrite Hamp. reflexivity.
  - rewrite contains_amp_cons in Hid. apply orb_false_iff in Hid.
    destruct Hid as [Hc Hid]. simpl. rewrite Hc, (IH Hid). reflexivity.
Qed.

Lemma match_video_id_here_sound (s g : string) :
  Ingest.match_video_id_here s = Some g ->
  g <> "" /\ Str.contains "&" g = false.
Proof.
  unfold Ingest.match_video_id_here.
  assert (Hrun : forall k,
             match Ingest.run_not_amp (Str.drop k s) with
             | "" => None
             | String a r => Some (String a r)
             end = Some g ->
             g <> "" /\ Str.contains "&" g = false).
  { intros k H.
    pose proof (run_not_amp_clean (Str.drop k s)) as Hclean.
    destruct (Ingest.run_not_amp (Str.drop k s)) as [| a r];
      [discriminate |].
    inversion H; subst. split; [discriminate | exact Hclean]. }
  destruct (Str.startswith "v=" s).
  - destruct (Ingest.run_not_amp (Str.drop 2 s)) as [| a r] eqn:E.
    + destruct (Str.startswith ".be/" s); [| discriminate].
      apply (Hrun 4%nat).
    + intro H. apply (Hrun 2%nat). rewrite E. exact H.
  - destruct (Str.startswith ".be/" s); [| discriminate].
    apply (Hrun 4%nat).
Qed.

Lemma search_video_id_step (c : ascii) (s : string) :
  Ingest.search_video_id (String c s)
  = match Ingest.match_video_id_here (String c s) with
    | Some g => Some g
    | None => Ingest.search_video_id s
    end.
Proof. reflexivity. Qed.

Section IngestExtras.
Context {W Content : Type} (C : Ingest.Collab W Content).

Lemma determine_parser_multimodal (file_path : string) (w : W) :
  Ingest.determine_parser C file_path true w
  = (let ext := Ingest.lower C (snd (OsPath.splitext file_path)) in
     if String.eqb ext ".pdf" || String.eqb ext ".docx"
        || String.eqb ext ".pptx"
     then Ok Ingest.MultimodalParser
     else Err (ValueError
                 ("Unsupported file extension for multimodal parsing: " ++ ext)),
     w).
Proof.
  unfold Ingest.determine_parser. cbv zeta.
  destruct (String.eqb (Ingest.lower C (snd (OsPath.splitext file_path))) ".pdf"
            || String.eqb (Ingest.lower C (snd (OsPath.splitext file_path))) ".docx"
            || String.eqb (Ingest.lower C (snd (OsPath.splitext file_path))) ".pptx");
    reflexivity.
Qed.

(** X1. With [multimodal = true] the selector looks at the extension only:
    the three extensions [.pdf], [.docx], [.pptx] (in any letter case) get
    the multimodal parser, every other path or URL is refused with a
    [ValueError]; neither the probe nor the existence check runs. *)
Theorem multimodal_accepts_three_extensions (file_path : string) (w : W) :
  let ext := Ingest.lower C (snd (OsPath.splitext file_path)) in
  (In ext [".pdf"; ".docx"; ".pptx"] ->
   Ingest.determine_parser C file_path true w
   = (Ok Ingest.MultimodalParser, w))
  /\ (~ In ext [".pdf"; ".docx"; ".pptx"] ->
      Ingest.determine_parser C file_path true w
      = (Err (ValueError
                ("Unsupported file extension for multimodal parsing: " ++ ext)),
         w)).
Proof.
  intro ext. rewrite determine_parser_multimodal. cbv zeta. fold ext.
  split.
  - intros [<- | [<- | [<- | []]]]; reflexivity.
  - intro Hout.
    destruct (String.eqb ext ".pdf") eqn:E1;
      [apply String.eqb_eq in E1; exfalso; apply Hout; simpl; auto |].
    destruct (String.eqb ext ".docx") eqn:E2;
      [apply String.eqb_eq in E2; exfalso; apply Hout; simpl; auto |].
    destruct (String.eqb ext ".pptx") eqn:E3;
      [apply String.eqb_eq in E3; exfalso; apply Hout; simpl; auto |].
    reflexivity.
Qed.

(** X2. With [multimodal = false] the selector never returns the
    multimodal parser. *)
Theorem no_multimodal_parser_without_flag
    (file_path : string) (p : Ingest.parser) (w w' : W) :
  Ingest.determine_parser C file_path false w = (Ok p, w') ->
  p <> Ingest.MultimodalParser.
Proof.
  unfold Ingest.determine_parser. cbv zeta.
  destruct (String.eqb (Ingest.lower C (snd (OsPath.splitext file_path))) ".pdf").
  { unfold ret. intro H. inversion H. discriminate. }
  destruct (Ingest.is_url file_path).
  - destruct (Ingest.is_youtube file_path).
    + unfold ret. intro H. inversion H. discriminate.
    + unfold bind, Ingest._check_pdf_url.
      destruct (Ingest.requests_head C file_path w) as [[header | e] w1].
      * destruct (Str.contains "application/pdf"
                    match header with Some v => v | None => "" end);
          unfold ret; intro H; inversion H; discriminate.
      * destruct (Ingest.is_request_exception e);
          unfold ret; intro H; inversion H; discriminate.
  - unfold bind, Ingest.ask.
    destruct (Ingest.path_exists C file_path w) as [[|] w1].
    + unfold Ingest.parsers.
      repeat match goal with
             | |- context [if String.eqb ?a ?b then _ else _] =>
                 destruct (String.eqb a b)
             end;
        unfold ret, raise; intro H; inversion H; discriminate.
    + unfold raise. discriminate.
Qed.

(** X3. With [multimodal = false] a URL is never checked on the file
    system, and a parser it gets is one of PDF, YouTube, HTML. When the URL
    is not a video URL and does not end in [.pdf], the HEAD request is made
    once and decides: PDF when the [Content-Type] contains
    [application/pdf], HTML otherwise, HTML also when the request raises a
    [RequestException]; any other exception of the request is raised by
    the selector. *)
Theorem url_selection_follows_probe (file_path : string) (w : W) :
  Ingest.is_url file_path = true ->
  (forall r w',
      Ingest.determine_parser C file_path false w = (r, w') ->
      (w' = w \/ w' = snd (Ingest.requests_head C file_path w))
      /\ (forall p, r = Ok p ->
                    p = Ingest.PDFParser \/ p = Ingest.YouTubeParser
                    \/ p = Ingest.HTMLParser))
  /\ (Ingest.is_youtube file_path = false ->
      Ingest.lower C (snd (OsPath.splitext file_path)) <> ".pdf" ->
      (forall header w',
          Ingest.requests_head C file_path w = (Ok header, w') ->
          Ingest.determine_parser C file_path false w
          = (Ok (if Str.contains "application/pdf"
                      match header with Some v => v | None => "" end
                 then Ingest.PDFParser else Ingest.HTMLParser), w'))
      /\ (forall w',
             Ingest.requests_head C file_path w
             = (Err (Raised "RequestException"), w') ->
             Ingest.determine_parser C file_path false w
             = (Ok Ingest.HTMLParser, w'))
      /\ (forall e w',
             Ingest.requests_head C file_path w = (Err e, w') ->
             Ingest.is_request_exception e = false ->
             Ingest.determine_parser C file_path false w = (Err e, w'))).
Proof.
  intro Hurl. unfold Ingest.determine_parser. cbv zeta. rewrite Hurl.
  split.
  - intros r w'.
    destruct (String.eqb (Ingest.lower C (snd (OsPath.splitext file_path)))
                         ".pdf").
    { unfold ret. intro H. inversion H. split; [left; reflexivity |].
      intros p Hp. inversion Hp. auto. }
    destruct (Ingest.is_youtube file_path).
    { unfold ret. intro H. inversion H. split; [left; reflexivity |].
      intros p Hp. inversion Hp. auto. }
    unfold bind, Ingest._check_pdf_url.
    destruct (Ingest.requests_head C file_path w) as [[header | e] w1];
      cbn [snd].
    + destruct (Str.contains "application/pdf"
                  match header with Some v => v | None => "" end);
        unfold ret; intro H; inversion H;
        (split; [right; reflexivity | intros p Hp; inversion Hp; auto]).
    + destruct (Ingest.is_request_exception e);
        unfold ret; intro H; inversion H;
        (split; [right; reflexivity | intros p Hp; inversion Hp; auto]).
  - intros Hyt Hext. rewrite (not_pdf_eqb _ Hext), Hyt.
    unfold bind, Ingest._check_pdf_url. split; [| split].
    + intros header w' Hhead. rewrite Hhead.
      destruct (Str.contains "application/pdf"
                  match header with Some v => v | None => "" end);
        reflexivity.
    + intros w' Hhead. rewrite Hhead. reflexivity.
    + intros e w' Hhead He. rewrite Hhead, He. reflexivity.
Qed.

(** X4. With [multimodal = false], a local path that does not end in
    [.pdf] is first checked on the file system. A missing file raises
    [FileNotFoundError] whatever its extension; an existing one gets the
    parser of its lowercased extension from the table html/htm/docx/pptx/txt
    and a [ValueError] for any other extension. The probe never runs. *)
Theorem local_path_selection (file_path : string) (w : W) :
  Ingest.is_url file_path = false ->
  Ingest.lower C (snd (OsPath.splitext file_path)) <> ".pdf" ->
  let ext := Ingest.lower C (snd (OsPath.splitext file_path)) in
  let w' := snd (Ingest.path_exists C file_path w) in
  (fst (Ingest.path_exists C file_path w) = false ->
   Ingest.determine_parser C file_path false w
   = (Err (FileNotFoundError ("File not found: " ++ file_path)), w'))
  /\ (fst (Ingest.path_exists C file_path w) = true ->
      (forall p,
          In (ext, p) [(".html", Ingest.HTMLParser); (".htm", Ingest.HTMLParser);
                       (".docx", Ingest.DOCXParser); (".pptx", Ingest.PPTParser);
                       (".txt", Ingest.TXTParser)] ->
          Ingest.determine_parser C file_path false w = (Ok p, w'))
      /\ (~ In ext [".html"; ".htm"; ".docx"; ".pptx"; ".txt"] ->
          Ingest.determine_parser C file_path false w
          = (Err (ValueError ("Unsupported file extension: " ++ ext)), w'))).
Proof.
  intros Hurl Hext ext w'. subst ext w'.
  unfold Ingest.determine_parser. cbv zeta.
  rewrite (not_pdf_eqb _ Hext), Hurl.
  unfold bind, Ingest.ask.
  destruct (Ingest.path_exists C file_path w) as [found w1]. cbn [fst snd].
  generalize (Ingest.lower C (snd (OsPath.splitext file_path))) as ext. intro ext.
  split.
  - intros ->. reflexivity.
  - intros ->. split.
    + intros p Hin. simpl in Hin.
      destruct Hin as [H | [H | [H | [H | [H | []]]]]];
        inversion H; reflexivity.
    + intro Hout. unfold Ingest.parsers.
      repeat match goal with
             | |- context [if String.eqb ext ?b then _ else _] =>
                 let E := fresh "E" in
                 destruct (String.eqb ext b) eqn:E;
                 [apply String.eqb_eq in E; exfalso; apply Hout;
                  rewrite E; simpl; auto 6 |]
             end.
      reflexivity.
Qed.

End IngestExtras.

Lemma search_video_id_skip (c : ascii) (s : string) :
  Ingest.match_video_id_here (String c s) = None ->
  Ingest.search_video_id (String c s) = Ingest.search_video_id s.
Proof.
  intro H. rewrite search_video_id_step, H. reflexivity.
Qed.

Lemma search_video_id_hit (s g : string) :
  Ingest.match_video_id_here s = Some g ->
  Ingest.search_video_id s = Some g.
Proof.
  intro H. destruct s as [| c s].
  - discriminate.
  - rewrite search_video_id_step, H. reflexivity.
Qed.

Lemma match_video_id_after_v (id rest : string) :
  id <> "" ->
  Str.contains "&" id = false ->
  rest = "" \/ String.prefix "&" rest = true ->
  Ingest.match_video_id_here ("v=" ++ id ++ rest) = Some id.
Proof.
  intros Hne Hid Hrest. pose proof (run_not_amp_stops id rest Hid Hrest) as Hrun.
  destruct id as [| c id]; [congruence |].
  unfold Ingest.match_video_id_here, Str.startswith.
  change (String.prefix "v=" ("v=" ++ String c id ++ rest)) with true.
  change (Str.drop 2 ("v=" ++ String c id ++ rest)) with (String c id ++ rest).
  cbv beta iota. rewrite Hrun. reflexivity.
Qed.

Lemma match_video_id_after_be (id rest : string) :
  id <> "" ->
  Str.contains "&" id = false ->
  rest = "" \/ String.prefix "&" rest = true ->
  Ingest.match_video_id_here (".be/" ++ id ++ rest) = Some id.
Proof.
  intros Hne Hid Hrest. pose proof (run_not_amp_stops id rest Hid Hrest) as Hrun.
  destruct id as [| c id]; [congruence |].
  unfold Ingest.match_video_id_here, Str.startswith.
  change (String.prefix "v=" (".be/" ++ String c id ++ rest)) with false.
  change (String.prefix ".be/" (".be/" ++ String c id ++ rest)) with true.
  change (Str.drop 4 (".be/" ++ String c id ++ rest))
    with (String c id ++ rest).
  cbv beta iota. rewrite Hrun. reflexivity.
Qed.

(** X5. Whatever the URL, a video id found by the search is not empty and
    holds no ['&']. *)
Theorem video_id_is_clean (s g : string) :
  Ingest.search_video_id s = Some g ->
  g <> "" /\ Str.contains "&" g = false.
Proof.
  induction s as [| c s IH].
  - discriminate.
  - rewrite search_video_id_step.
    destruct (Ingest.match_video_id_here (String c s)) as [g' |] eqn:E.
    + intro H. inversion H; subst. apply (match_video_id_here_sound _ _ E).
    + exact IH.
Qed.

Section IngestNaming.
Context {W Content : Type} (C : Ingest.Collab W Content).

(** X6. For the two usual forms of a video URL, a watch URL
    [https://www.youtube.com/watch?v=ID] and a short URL
    [https://youtu.be/ID], each possibly followed by ['&'] and more
    parameters, the derived output name is [youtube_ID]. *)
Theorem video_urls_are_named_after_their_id (id rest : string) :
  id <> "" ->
  Str.contains "&" id = false ->
  rest = "" \/ String.prefix "&" rest = true ->
  Ingest.derive_output_name C ("https://www.youtube.com/watch?v=" ++ id ++ rest)
  = Ok ("youtube_" ++ id)
  /\ Ingest.derive_output_name C ("https://youtu.be/" ++ id ++ rest)
     = Ok ("youtube_" ++ id).
Proof.
  intros Hne Hid Hrest.
  pose proof (match_video_id_after_v id rest Hne Hid Hrest) as Hv.
  pose proof (match_video_id_after_be id rest Hne Hid Hrest) as Hb.
  cbn [String.append] in Hv, Hb.
  split.
  - unfold Ingest.derive_output_name.
    replace (Ingest.is_url ("https://www.youtube.com/watch?v=" ++ id ++ rest))
      with true by reflexivity.
    replace (Ingest.is_youtube
               ("https://www.youtube.com/watch?v=" ++ id ++ rest))
      with true by reflexivity.
    change ("https://www.youtube.com/watch?v=" ++ id ++ rest)
      with ("https://www.youtube.com/watch?" ++ ("v=" ++ id ++ rest)).
    cbn [String.append].
    repeat (rewrite search_video_id_skip by reflexivity).
    rewrite (search_video_id_hit _ _ Hv). reflexivity.
  - unfold Ingest.derive_output_name.
    replace (Ingest.is_url ("https://youtu.be/" ++ id ++ rest))
      with true by reflexivity.
    replace (Ingest.is_youtube ("https://youtu.be/" ++ id ++ rest))
      with true
      by (unfold Ingest.is_youtube; symmetry; apply orb_true_iff; right;
          reflexivity).
    change ("https://youtu.be/" ++ id ++ rest)
      with ("https://youtu" ++ (".be/" ++ id ++ rest)).
    cbn [String.append].
    repeat (rewrite search_video_id_skip by reflexivity).
    rewrite (search_video_id_hit _ _ Hb). reflexivity.
Qed.

End IngestNaming.

Lemma prefix_char (c a : ascii) (s : string) :
  String.prefix (String c "") (String a s) = Ascii.eqb a c.
Proof.
  change (String.prefix (String c "") (String a s))
    with (match Ascii.ascii_dec c a with
          | left _ => String.prefix "" s
          | right _ => false
          end).
  destruct (Ascii.ascii_dec c a) as [<- | Hne].
  - rewrite Ascii.eqb_refl. destruct s; reflexivity.
  - symmetry. apply Ascii.eqb_neq. congruence.
Qed.

Lemma contains_char_cons (c a : ascii) (s : string) :
  Str.contains (String c "") (String a s)
  = Ascii.eqb a c || Str.contains (String c "") s.
Proof.
  change (Str.contains (String c "") (String a s))
    with (String.prefix (String c "") (String a s)
          || Str.contains (String c "") s).
  rewrite prefix_char. reflexivity.
Qed.

Lemma contains_char_app (c : ascii) (a b : string) :
  Str.contains (String c "") (a ++ b)
  = Str.contains (String c "") a || Str.contains (String c "") b.
Proof.
  induction a as [| x a IH].
  - reflexivity.
  - change (String x a ++ b) with (String x (a ++ b)).
    rewrite !contains_char_cons, IH, orb_assoc. reflexivity.
Qed.

(** After the last occurrence of [c] found by [rfind] there is no [c]. *)
Lemma rfind_from_last (c : ascii) (s : string) :
  forall i last,
    last < i ->
    (Str.rfind_from c s i last = last \/ i <= Str.rfind_from c s i last)
    /\ Str.contains (String c "")
         (Str.drop (Z.to_nat (Str.rfind_from c s i last - i + 1)) s) = false.
Proof.
  induction s as [| a s IH]; intros i last Hlt.
  - simpl. split; [left; reflexivity |].
    destruct (Z.to_nat (last - i + 1)); reflexivity.
  - cbn [Str.rfind_from].
    destruct (Ascii.eqb a c) eqn:E.
    + destruct (IH (i + 1) i ltac:(lia)) as [Hr Hc].
      set (r := Str.rfind_from c s (i + 1) i) in *.
      split; [right; lia |].
      replace (Z.to_nat (r - i + 1)) with (S (Z.to_nat (r - (i + 1) + 1)))
        by lia.
      exact Hc.
    + destruct (IH (i + 1) last ltac:(lia)) as [Hr Hc].
      set (r := Str.rfind_from c s (i + 1) last) in *.
      destruct (Z.lt_ge_cases r (i + 1)) as [Hsmall | Hbig].
      * assert (r = last) by lia.
        split; [left; assumption |].
        replace (Z.to_nat (r - i + 1)) with 0%nat by lia.
        replace (Z.to_nat (r - (i + 1) + 1)) with 0%nat in Hc by lia.
        simpl in Hc. cbn [Str.drop]. rewrite contains_char_cons, E, Hc.
        reflexivity.
      * split; [right; lia |].
        replace (Z.to_nat (r - i + 1)) with (S (Z.to_nat (r - (i + 1) + 1)))
          by lia.
        exact Hc.
Qed.

(** [os.path.basename] returns a name without ['/']. *)
Lemma basename_has_no_separator (p : string) :
  Str.contains "/" (OsPath.basename p) = false.
Proof.
  unfold OsPath.basename, Str.rfind.
  destruct (rfind_from_last "/" p 0 (-1) ltac:(lia)) as [_ H].
  replace (Str.rfind_from "/" p 0 (-1) - 0 + 1)
    with (Str.rfind_from "/" p 0 (-1) + 1) in H by lia.
  exact H.
Qed.

Lemma replace_char_removes (a b : ascii) (s : string) :
  a <> b ->
  Str.contains (String a "") (Str.replace_char a b s) = false.
Proof.
  intro Hne. induction s as [| c s IH]; [reflexivity |].
  cbn [Str.replace_char]. rewrite contains_char_cons, IH, orb_false_r.
  destruct (Ascii.eqb c a) eqn:E.
  - apply Ascii.eqb_neq. congruence.
  - exact E.
Qed.

(** [os.path.join(dir, name)] stays under [dir] unless [name] starts with
    ['/']. *)
Lemma join_stays_under (dir name : string) :
  Str.startswith "/" name = false ->
  String.prefix dir (OsPath.join dir name) = true.
Proof.
  intro H. unfold OsPath.join. rewrite H.
  destruct (String.eqb dir "" || Str.endswith "/" dir);
    apply prefix_of_append.
Qed.

Lemma startswith_sep_app (a b : string) :
  a <> "" ->
  Str.startswith "/" (a ++ b) = Str.startswith "/" a.
Proof.
  intro Hne. destruct a as [| c a]; [congruence |].
  unfold Str.startswith. change (String c a ++ b) with (String c (a ++ b)).
  rewrite !prefix_char. reflexivity.
Qed.

Lemma no_separator_no_leading_separator (s : string) :
  Str.contains "/" s = false -> Str.startswith "/" s = false.
Proof.
  destruct s as [| c s]; [reflexivity |].
  rewrite contains_char_cons. unfold Str.startswith. rewrite prefix_char.
  intro H. apply orb_false_iff in H. apply H.
Qed.

Section IngestOutput.
Context {W Content : Type} (C : Ingest.Collab W Content).

(** [process_file] seen from the steps before the output name (the output
    directory, the parser selection and the parsing). *)
Lemma process_file_after_steps
      (file_path dir : string) (output_name : option string)
      (multimodal : bool) (w : W) :
  Ingest.process_file C file_path (Some dir) output_name multimodal w
  = match
      bind (Ingest.ask (Ingest.path_exists C dir)) (fun there =>
      bind (if there then ret tt else Ingest.makedirs C dir) (fun _ =>
      bind (Ingest.determine_parser C file_path multimodal) (fun parser =>
      Ingest.parse C parser file_path))) w
    with
    | (Ok content, w1) =>
        match (if Ingest.name_missing output_name
               then Ingest.derive_output_name C file_path
               else Ok (match output_name with Some s => s | None => "" end))
        with
        | Ok name =>
            match Ingest.create_lance_dataset C content
                    (OsPath.join dir (name ++ ".lance")) multimodal w1 with
            | (Ok _, w2) => (Ok (OsPath.join dir (name ++ ".lance")), w2)
            | (Err e, w2) => (Err e, w2)
            end
        | Err e => (Err e, w1)
        end
    | (Err e, w1) => (Err e, w1)
    end.
Proof.
  unfold Ingest.process_file, bind.
  destruct (Ingest.ask (Ingest.path_exists C dir) w) as [[there | e] w0];
    [| reflexivity].
  destruct ((if there then ret tt else Ingest.makedirs C dir) w0)
    as [[[] | e] w0']; [| reflexivity].
  destruct (Ingest.determine_parser C file_path multimodal w0')
    as [[parser | e] w0'']; [| reflexivity].
  destruct (Ingest.parse C parser file_path w0'') as [[content | e] w1];
    [| reflexivity].
  destruct (Ingest.name_missing output_name); unfold lift.
  - destruct (Ingest.derive_output_name C file_path) as [name | e];
      [| reflexivity].
    destruct (Ingest.create_lance_dataset C content
                (OsPath.join dir (name ++ ".lance")) multimodal w1)
      as [[[] | e] w2]; reflexivity.
  - destruct (Ingest.create_lance_dataset C content
                (OsPath.join dir
                   (match output_name with Some s => s | None => "" end
                    ++ ".lance")) multimodal w1)
      as [[[] | e] w2]; reflexivity.
Qed.

(** X7. With an output name given, no name is derived from the path: once
    the file is parsed the dataset is stored at
    [os.path.join(output_dir, output_name + ".lance")] and that path is
    returned, for every path or URL (a video URL without an id included).
    The path is built from the two strings as they are: for a name that
    does not start with ['/'] it is the output directory, a ['/'] unless
    the directory is empty or ends in one, the name and [.lance]; for a
    name that starts with ['/'] the output directory is dropped and the
    path is the name plus [.lance]. Nothing is normalised, so the name
    decides where the path points. *)
Theorem given_output_name_is_used
    (file_path dir name : string) (multimodal : bool) (content : Content)
    (w w1 w2 : W) :
  name <> "" ->
  bind (Ingest.ask (Ingest.path_exists C dir)) (fun there =>
  bind (if there then ret tt else Ingest.makedirs C dir) (fun _ =>
  bind (Ingest.determine_parser C file_path multimodal) (fun parser =>
  Ingest.parse C parser file_path))) w = (Ok content, w1) ->
  Ingest.create_lance_dataset C content
    (OsPath.join dir (name ++ ".lance")) multimodal w1 = (Ok tt, w2) ->
  Ingest.process_file C file_path (Some dir) (Some name) multimodal w
  = (Ok (OsPath.join dir (name ++ ".lance")), w2)
  /\ (Str.startswith "/" name = false ->
      OsPath.join dir (name ++ ".lance")
      = dir ++ (if String.eqb dir "" || Str.endswith "/" dir then "" else "/")
            ++ name ++ ".lance")
  /\ (Str.startswith "/" name = true ->
      OsPath.join dir (name ++ ".lance") = name ++ ".lance").
Proof.
  intros Hne Hsteps Hstore. split; [| split].
  - rewrite process_file_after_steps, Hsteps.
    replace (Ingest.name_missing (Some name)) with false
      by (symmetry; apply String.eqb_neq; exact Hne).
    rewrite Hstore. reflexivity.
  - intro H. unfold OsPath.join.
    rewrite (startswith_sep_app name ".lance" Hne), H.
    destruct (String.eqb dir "" || Str.endswith "/" dir); reflexivity.
  - intro H. unfold OsPath.join.
    rewrite (startswith_sep_app name ".lance" Hne), H. reflexivity.
Qed.

(** X8. For a URL that is not a video URL the derived name is the host
    with every ['.'] turned into ['_']: it contains no ['.']. *)
Theorem host_name_has_no_dot (file_path host : string) :
  Ingest.is_url file_path = true ->
  Ingest.is_youtube file_path = false ->
  Ingest.netloc C file_path = Ok host ->
  exists name,
    Ingest.derive_output_name C file_path = Ok name
    /\ name = Str.replace_char "." "_" host
    /\ String.length name = String.length host
    /\ Str.contains "." name = false.
Proof.
  intros Hurl Hyt Hhost. exists (Str.replace_char "." "_" host).
  split; [| split; [reflexivity | split]].
  - unfold Ingest.derive_output_name. rewrite Hurl, Hyt, Hhost. reflexivity.
  - clear. induction host as [| c host IH]; simpl; [| rewrite IH]; reflexivity.
  - apply replace_char_removes. discriminate.
Qed.

(** X9. For a local path the derived name is the file name without its
    extension: it never fails, name and extension give the file name back,
    the name contains no ['/'], and the dataset path
    [os.path.join(output_dir, name + ".lance")] lies under the output
    directory. *)
Theorem local_file_is_named_after_its_stem (file_path dir : string) :
  Ingest.is_url file_path = false ->
  exists name,
    Ingest.derive_output_name C file_path = Ok name
    /\ name ++ snd (OsPath.splitext (OsPath.basename file_path))
       = OsPath.basename file_path
    /\ Str.contains "/" name = false
    /\ String.prefix dir (OsPath.join dir (name ++ ".lance")) = true.
Proof.
  intro Hurl. exists (fst (OsPath.splitext (OsPath.basename file_path))).
  assert (Hclean :
            Str.contains "/" (fst (OsPath.splitext (OsPath.basename file_path)))
            = false).
  { pose proof (basename_has_no_separator file_path) as Hb.
    rewrite <- (splitext_joins (OsPath.basename file_path)) in Hb.
    rewrite contains_char_app in Hb. apply orb_false_iff in Hb. apply Hb. }
  split; [| split; [| split]].
  - unfold Ingest.derive_output_name. rewrite Hurl. reflexivity.
  - apply splitext_joins.
  - exact Hclean.
  - apply join_stays_under.
    apply no_separator_no_leading_separator.
    rewrite contains_char_app, Hclean. reflexivity.
Qed.

(** X10. A failure of one of the steps before the output name (creating
    the output directory, selecting the parser, parsing) is the failure of
    [process_file]: the exception is passed on as it is and no dataset is
    stored. *)
Theorem early_failure_is_passed_on
    (file_path dir : string) (output_name : option string)
    (multimodal : bool) (e : exn) (w w1 : W) :
  bind (Ingest.ask (Ingest.path_exists C dir)) (fun there =>
  bind (if there then ret tt else Ingest.makedirs C dir) (fun _ =>
  bind (Ingest.determine_parser C file_path multimodal) (fun parser =>
  Ingest.parse C parser file_path))) w = (Err e, w1) ->
  Ingest.process_file C file_path (Some dir) output_name multimodal w
  = (Err e, w1).
Proof.
  intro Hsteps. rewrite process_file_after_steps, Hsteps. reflexivity.
Qed.

End IngestOutput.

(** X11. The PDF probe answers true exactly on a response whose
    [Content-Type] header contains [application/pdf] (parameters such as a
    charset may follow or precede); a response without the header answers
    false; a request that raises a [RequestException] answers false instead
    of raising; any other exception is passed on. *)
Theorem pdf_probe_reads_content_type
    {W : Type} (head : string -> M W (option string)) (url : string)
    (w w' : W) :
  (forall pre post,
      head url w = (Ok (Some (pre ++ "application/pdf" ++ post)), w') ->
      Ingest._check_pdf_url head url w = (Ok true, w'))
  /\ (forall header,
         head url w = (Ok (Some header), w') ->
         Str.contains "application/pdf" header = false ->
         Ingest._check_pdf_url head url w = (Ok false, w'))
  /\ (head url w = (Ok None, w') ->
      Ingest._check_pdf_url head url w = (Ok false, w'))
  /\ (head url w = (Err (Raised "RequestException"), w') ->
      Ingest._check_pdf_url head url w = (Ok false, w'))
  /\ (forall e,
         head url w = (Err e, w') ->
         Ingest.is_request_exception e = false ->
         Ingest._check_pdf_url head url w = (Err e, w')).
Proof.
  unfold Ingest._check_pdf_url. repeat split.
  - intros pre post H. rewrite H, contains_in_the_middle. reflexivity.
  - intros header H Hno. rewrite H, Hno. reflexivity.
  - intro H. rewrite H. reflexivity.
  - intro H. rewrite H. reflexivity.
  - intros e H He. rewrite H, He. reflexivity.
Qed.


(* ===================================================================== *)
(** ** Further properties of create.py *)
(* ===================================================================== *)

(** X12. The nested-list repair changes nothing but a non-empty list whose
    first element is a list, which it replaces by that first element: a
    flat message list, an empty list and any value that is not a list are
    kept as they are. *)
Theorem flatten_nested_only_unwraps (v : pyval) :
  (exists inner others,
      v = PList (PList inner :: others)
      /\ Create.flatten_nested v = PList inner)
  \/ ((forall inner others, v <> PList (PList inner :: others))
      /\ Create.flatten_nested v = v).
Proof.
  destruct v as [| b | z | m e | s | l | d];
    try (right; split; [discriminate | ]; unfold Create.flatten_nested;
         rewrite andb_false_r; reflexivity).
  destruct l as [| head rest].
  - right. split; [discriminate | reflexivity].
  - destruct head as [| b | z | m e | s | inner | d];
      try (right; split; [discriminate | reflexivity]).
    left. exists inner, rest. split; reflexivity.
Qed.

(** X13. A limit [n] acts as the slice [conversations[:n]]: a list is cut
    to a prefix of itself and never grows; for [n >= 0] the prefix has
    [min n len] items, and for a negative [n] it is the list without its
    last [-n] items (nothing once [-n] reaches the length). *)
Theorem limit_is_a_slice (n : Z) (items : list pyval) :
  let len := Z.of_nat (List.length items) in
  let k := Z.to_nat (if n <? 0 then len + n else n) in
  Create.limit_conversations (PInt n) (PList items)
  = Ok (PList (firstn k items))
  /\ List.length (firstn k items) = Nat.min k (List.length items)
  /\ (n < 0 ->
      Z.of_nat (List.length (firstn k items)) = Z.max 0 (len + n)).
Proof.
  intros len k. split; [| split].
  - destruct (n <? 0) eqn:E.
    + apply Z.ltb_lt in E. unfold Create.limit_conversations. simpl.
      replace (n <? Z.of_nat (List.length items)) with true
        by (symmetry; apply Z.ltb_lt; lia).
      unfold Py.slice_stop.
      replace (n <? 0) with true by (symmetry; apply Z.ltb_lt; lia).
      subst k len. f_equal. f_equal. f_equal. lia.
    + apply Z.ltb_ge in E. subst k. apply limit_conversations_list. exact E.
  - apply length_firstn.
  - intro Hneg. rewrite length_firstn. subst k len.
    replace (n <? 0) with true by (symmetry; apply Z.ltb_lt; lia). lia.
Qed.

(** X14. [" ".join([doc["text"] for doc in documents])]: when every
    document has a string at [text] the result is the texts joined by one
    space, in order (the text itself for a single document, the empty
    string for none); the first document in which [doc["text"]] raises
    makes the whole join raise that exception, whatever follows it. *)
Theorem full_text_joins_texts
    (docs : list pyval) (texts : list string)
    (pre post : list pyval) (bad : pyval) (e : exn) :
  Forall2 (fun doc t => Py.getitem doc "text" = Ok (PStr t)) docs texts ->
  Forall (fun doc => exists v, Py.getitem doc "text" = Ok v) pre ->
  Py.getitem bad "text" = Err e ->
  Create.full_text (PList docs) = Ok (Str.join " " texts)
  /\ Create.full_text (PList (pre ++ bad :: post)) = Err e.
Proof.
  intros Hdocs Hpre Hbad. split.
  - unfold Create.full_text. simpl.
    assert (H1 : Create.res_map (fun doc => Py.getitem doc "text") docs
                 = Ok (map PStr texts)).
    { induction Hdocs as [| doc t docs texts Hd _ IH]; simpl.
      - reflexivity.
      - rewrite Hd. simpl. rewrite IH. reflexivity. }
    rewrite H1. simpl.
    assert (H2 : Create.res_map Create.as_str (map PStr texts) = Ok texts).
    { clear. induction texts as [| t texts IH]; simpl.
      - reflexivity.
      - rewrite IH. reflexivity. }
    rewrite H2. reflexivity.
  - unfold Create.full_text. simpl.
    assert (H1 : Create.res_map (fun doc => Py.getitem doc "text")
                   (pre ++ bad :: post) = Err e).
    { induction Hpre as [| doc pre [v Hv] _ IH]; simpl.
      - rewrite Hbad. reflexivity.
      - rewrite Hv. simpl. rewrite IH. reflexivity. }
    rewrite H1. reflexivity.
Qed.

(** X15. [config.setdefault('generation', {})[key] = value] on a
    configuration whose [generation] entry is absent or a dict: afterwards
    [config['generation'][key]] is the value, every other entry of
    [generation] and every other entry of the configuration is as before. *)
Theorem generation_override_is_visible
    (key : string) (value : Z) (d : list (string * pyval)) :
  Py.dict_get "generation" d = None
  \/ (exists g, Py.dict_get "generation" d = Some (PDict g)) ->
  exists d' g',
    Create.override_generation key value (PDict d) = Ok (PDict d')
    /\ Py.dict_get "generation" d' = Some (PDict g')
    /\ Py.dict_get key g' = Some (PInt value)
    /\ (forall k, k <> "generation" -> Py.dict_get k d' = Py.dict_get k d)
    /\ (forall k, k <> key ->
          Py.dict_get k g'
          = match Py.dict_get "generation" d with
            | Some (PDict g) => Py.dict_get k g
            | _ => None
            end).
Proof.
  intros [Hnone | [g Hg]]; unfold Create.override_generation.
  - rewrite Hnone.
    exists (Py.dict_set "generation" (PDict [(key, PInt value)]) d),
      [(key, PInt value)].
    split; [reflexivity | split; [apply dict_get_set_same | split]].
    + simpl. rewrite String.eqb_refl. reflexivity.
    + split.
      * intros k Hk. apply dict_get_set_other. exact Hk.
      * intros k Hk. simpl.
        destruct (String.eqb key k) eqn:E; [| reflexivity].
        apply String.eqb_eq in E. congruence.
  - rewrite Hg.
    exists (Py.dict_set "generation" (PDict (Py.dict_set key (PInt value) g)) d),
      (Py.dict_set key (PInt value) g).
    split; [reflexivity | split; [apply dict_get_set_same | split]].
    + apply dict_get_set_same.
    + split.
      * intros k Hk. apply dict_get_set_other. exact Hk.
      * intros k Hk. apply dict_get_set_other. exact Hk.
Qed.

Section LoopExtras.
Context {W Gen : Type} (C : Create.Collab W Gen) (generator : Gen).

Lemma enhance_item_untouched (c : pyval) (w : W) :
  Py.is_dict_with "conversations" c = false ->
  Create.enhance_item C generator c w = (Ok c, w).
Proof.
  intro H. unfold Create.enhance_item.
  destruct c as [| b | z | m e | s | l | d]; try reflexivity.
  simpl in H. unfold Py.dict_has in H.
  destruct (Py.dict_get "conversations" d); [discriminate | reflexivity].
Qed.

(** X16. Items that are not objects with the key [conversations] go
    through the loop unchanged and in order, and the backend is not
    called. *)
Theorem items_without_conversations_pass_through
    (items acc : list pyval) (w : W) :
  Forall (fun item => Py.is_dict_with "conversations" item = false) items ->
  Create.enhance_loop C generator items acc w = (Ok (acc ++ items)%list, w).
Proof.
  intro Hall. revert acc.
  induction Hall as [| c rest Hc _ IH]; intro acc.
  - simpl. unfold ret. rewrite app_nil_r. reflexivity.
  - cbn [Create.enhance_loop]. unfold bind.
    rewrite (enhance_item_untouched c w Hc), IH, <- app_assoc. reflexivity.
Qed.

Lemma enhance_item_related (c item : pyval) (w w' : W) :
  Create.enhance_item C generator c w = (Ok item, w') ->
  item = c
  \/ exists d msgs v,
       c = PDict d
       /\ Py.dict_get "conversations" d = Some (PList msgs)
       /\ item = PDict (Py.dict_set "conversations" v d).
Proof.
  unfold Create.enhance_item.
  destruct c as [| b | z | m e | s | l | d];
    try (unfold ret; intro H; inversion H; left; reflexivity).
  destruct (Py.dict_get "conversations" d) as [conv |] eqn:Hget;
    [| unfold ret; intro H; inversion H; left; reflexivity].
  destruct conv as [| b | z | m e | s | msgs | d'];
    try (unfold ret; intro H; inversion H; left; reflexivity).
  simpl. unfold bind.
  destruct (Create.enhance_with_cot C generator (PList msgs) true w)
    as [[answer | e] w1]; [| discriminate].
  unfold ret. intro H. inversion H. right.
  exists d, msgs, (Create.flatten_nested answer). auto.
Qed.

(** X17. When the loop returns, its output has one item per input
    conversation, at the same position, and each output item is either the
    input item itself or the input object with a new value at
    [conversations] (which had a list there): nothing is dropped,
    reordered or added. *)
Theorem enhanced_items_match_input (items out : list pyval) (w w' : W) :
  Create.enhance_loop C generator items [] w = (Ok out, w') ->
  Forall2 (fun c item =>
             item = c
             \/ exists d msgs v,
                  c = PDict d
                  /\ Py.dict_get "conversations" d = Some (PList msgs)
                  /\ item = PDict (Py.dict_set "conversations" v d))
          items out.
Proof.
  revert out w. induction items as [| c rest IH]; intros out w.
  - simpl. unfold ret. intro H. inversion H. constructor.
  - cbn [Create.enhance_loop]. unfold bind.
    destruct (Create.enhance_item C generator c w) as [[item | e] w1] eqn:Hi;
      [| discriminate].
    rewrite enhance_loop_acc.
    destruct (Create.enhance_loop C generator rest [] w1)
      as [[out' | e] w2] eqn:Hr; [| discriminate].
    intro H. inversion H; subst. simpl. constructor.
    + apply (enhance_item_related c item w w1 Hi).
    + apply (IH out' w1 Hr).
Qed.

(** X18. An exception raised by the backend on one conversation ends the
    loop with that exception: the conversations after it are not enhanced
    and no list of enhanced conversations is produced. *)
Theorem backend_failure_ends_the_loop
    (pre post acc out1 : list pyval) (d : list (string * pyval))
    (msgs : list pyval) (e : exn) (w w1 w2 : W) :
  Create.enhance_loop C generator pre acc w = (Ok out1, w1) ->
  Py.dict_get "conversations" d = Some (PList msgs) ->
  Create.enhance_with_cot C generator (PList msgs) true w1 = (Err e, w2) ->
  Create.enhance_loop C generator (pre ++ PDict d :: post) acc w = (Err e, w2).
Proof.
  intros Hpre Hget Hfail. rewrite enhance_loop_app. unfold bind.
  rewrite Hpre. cbn [Create.enhance_loop]. unfold bind.
  unfold Create.enhance_item. rewrite Hget. simpl. unfold bind.
  rewrite Hfail. reflexivity.
Qed.

End LoopExtras.

(** Run [process_file] up to the branch chosen by [content_type]. *)
Ltac open_branch Hprep Hct :=
  unfold Create.process_file; unfold bind at 1; rewrite Hprep, Hct;
  cbv beta iota delta [String.eqb Ascii.eqb Bool.eqb].

Section PipelineExtras.
Context {W Gen : Type} (C : Create.Collab W Gen) (generator : Gen)
        (verbose : bool).

(** X19. A bare list of messages (every element an object with the key
    [from], not all of them with the key [conversations]) is taken as one
    conversation with the flag set; with a limit that is absent or at least
    1 the document written is the single object
    [{"conversations": answer}]: the input is a list, the output an
    object. *)
Theorem message_list_is_written_as_object
    (items : list pyval) (max_examples answer : pyval) (w w' : W) :
  Create.all_messages items = true ->
  Create.all_dicts_have_conversations items = false ->
  max_examples = PNone \/ (exists z, max_examples = PInt z /\ 1 <= z) ->
  Create.enhance_with_cot C generator (PList items) true w = (Ok answer, w') ->
  Create.normalize verbose (Create.convert_to_conversation_format C)
                   (PList items)
  = Ok (PList [Create.wrap_conversation (PList items)], true)
  /\ Create.enhanced_document C generator verbose max_examples (PList items) w
     = (Ok (PDict [("conversations", Create.flatten_nested answer)]), w').
Proof.
  intros Hmsg Hconv Hmax Hans.
  assert (Hnorm :
            Create.normalize verbose (Create.convert_to_conversation_format C)
                             (PList items)
            = Ok (PList [Create.wrap_conversation (PList items)], true)).
  { unfold Create.normalize. cbn [Py.is_dict_with]. rewrite Hconv, Hmsg.
    reflexivity. }
  split; [exact Hnorm |].
  rewrite (enhanced_document_of_list C generator verbose (PList items)
             max_examples _ _ true w Hnorm (limit_keeps_single _ _ Hmax)).
  rewrite single_item_document.
  apply (enhance_item_enhanced C generator [("conversations", PList items)]
           items answer w w' eq_refl Hans).
Qed.

(** X20. Input that none of the four named shapes matches is carried to
    the output without a call of the backend. A list with no object that
    has the key [conversations] (and that is not a message list) is written
    back as it is, the empty list included. An object with neither
    [qa_pairs] nor [conversations] is iterated as a dict, so the document
    written is the list of its keys; with a limit below its number of keys
    the slice of the dict raises and nothing is enhanced. *)
Theorem unrecognised_input_passes_through
    (items : list pyval) (d : list (string * pyval)) (n : Z) (w : W) :
  Forall (fun item => Py.is_dict_with "conversations" item = false) items ->
  items = [] \/ Create.all_messages items = false ->
  Py.dict_has "qa_pairs" d = false ->
  Py.dict_has "conversations" d = false ->
  n < Z.of_nat (List.length d) ->
  Create.enhanced_document C generator verbose PNone (PList items) w
  = (Ok (PList items), w)
  /\ Create.enhanced_document C generator verbose PNone (PDict d) w
     = (Ok (PList (map PStr (Py.keys d))), w)
  /\ (exists e,
         Create.enhanced_document C generator verbose (PInt n) (PDict d) w
         = (Err e, w)).
Proof.
  intros Hitems Hshape Hq Hc Hn. split; [| split].
  - assert (Hnorm :
              Create.normalize verbose (Create.convert_to_conversation_format C)
                               (PList items)
              = Ok (PList items, false)).
    { unfold Create.normalize. cbn [Py.is_dict_with].
      destruct (Create.all_dicts_have_conversations items) eqn:E;
        [reflexivity |].
      destruct Hshape as [-> | ->]; [discriminate | reflexivity]. }
    rewrite (enhanced_document_of_list C generator verbose (PList items)
               PNone items items false w Hnorm eq_refl).
    unfold bind.
    rewrite (items_without_conversations_pass_through C generator items []
               w Hitems).
    reflexivity.
  - unfold Create.enhanced_document, Create.normalize.
    cbn [Py.is_dict_with]. rewrite Hq, Hc.
    unfold bind, lift. cbn [Create.limit_conversations].
    replace (Create.report_len verbose (PDict d)) with (Ok tt)
      by (destruct verbose; reflexivity).
    cbn [Py.iter].
    rewrite (items_without_conversations_pass_through C generator
               (map PStr (Py.keys d)) [] w).
    + reflexivity.
    + apply Forall_forall. intros item Hin. apply in_map_iff in Hin.
      destruct Hin as [k [<- _]]. reflexivity.
  - unfold Create.enhanced_document, Create.normalize.
    cbn [Py.is_dict_with]. rewrite Hq, Hc.
    unfold bind, lift, Create.limit_conversations. cbn [Py.len res_bind Py.int_gt].
    replace (n <? Z.of_nat (List.length d)) with true
      by (symmetry; apply Z.ltb_lt; exact Hn).
    exists TypeError. reflexivity.
Qed.

(** X21. A JSON scalar (null, a boolean, a number) as input makes the
    enhancement raise [TypeError] for every limit, before any call of the
    backend; [process_file] raises that [TypeError], not the [ValueError]
    for invalid JSON, and writes nothing. *)
Theorem scalar_input_raises_type_error
    (data max_examples : pyval) (a : Create.Args) (client : Create.Client)
    (base_name : string) (documents limit : pyval) (w w0 w1 w2 w3 : W) :
  match data with
  | PNone | PBool _ | PInt _ | PFloat _ _ => True
  | _ => False
  end ->
  Create.prepare C a w0 = (Ok (client, base_name, documents), w1) ->
  Create.content_type a = "cot-enhance" ->
  Create.cot_enhance_setup C a client w1 = (Ok (generator, limit), w2) ->
  Create.json_load C (Create.file_path a) w2 = (Ok data, w3) ->
  Create.enhanced_document C generator verbose max_examples data w
  = (Err TypeError, w)
  /\ Create.process_file C a w0 = (Err TypeError, w3).
Proof.
  intros Hscalar Hprep Hct Hset Hload.
  assert (Hdoc : forall v m w',
             Create.enhanced_document C generator v m data w'
             = (Err TypeError, w')).
  { intros v m w'.
    destruct data; try contradiction; destruct m; destruct v; reflexivity. }
  split; [apply Hdoc |].
  open_branch Hprep Hct.
  unfold Create.cot_enhance_branch, bind. rewrite Hset.
  unfold try_except_raise, bind, Create.cot_enhance_generate, bind.
  rewrite Hload, Hdoc. reflexivity.
Qed.

(** X22. In the [cot-enhance] branch a failure while loading or enhancing
    is the failure of [process_file], and nothing is written. A
    [JSONDecodeError] is reported as the [ValueError] "Failed to parse ...
    as JSON", whether it comes from loading the input or from the
    enhancement; any other exception (a missing file, a backend error) is
    passed on as it is. *)
Theorem json_errors_become_value_errors
    (a : Create.Args) (client : Create.Client) (base_name : string)
    (documents limit : pyval) (gen : Gen) (e : exn) (w w1 w2 w3 : W) :
  Create.prepare C a w = (Ok (client, base_name, documents), w1) ->
  Create.content_type a = "cot-enhance" ->
  Create.cot_enhance_setup C a client w1 = (Ok (gen, limit), w2) ->
  Create.cot_enhance_generate C a gen limit w2 = (Err e, w3) ->
  Create.process_file C a w
  = (Err (if Create.is_json_decode_error e
          then ValueError (Create.not_json_message a) else e), w3)
  /\ (e = JSONDecodeError ->
      Create.process_file C a w
      = (Err (ValueError ("Failed to parse " ++ Create.file_path a
                          ++ " as JSON. For cot-enhance, input must be a valid JSON file.")),
         w3))
  /\ (Create.is_json_decode_error e = false ->
      Create.process_file C a w = (Err e, w3)).
Proof.
  intros Hprep Hct Hset Hgen.
  assert (H : Create.process_file C a w
              = (Err (if Create.is_json_decode_error e
                      then ValueError (Create.not_json_message a) else e), w3)).
  { open_branch Hprep Hct.
    unfold Create.cot_enhance_branch, bind. rewrite Hset.
    unfold try_except_raise, bind. rewrite Hgen. reflexivity. }
  split; [exact H | split].
  - intros ->. exact H.
  - intro He. rewrite H, He. reflexivity.
Qed.

(** X23. A content type outside the six known ones is refused with
    [ValueError "Unknown content type: ..."], but only after the
    preparation has run (output directory, client, reading the input): when
    the preparation fails, its exception is raised instead. *)
Theorem unknown_content_type_is_refused_last (a : Create.Args) (w : W) :
  ~ In (Create.content_type a)
       ["qa"; "multimodal-qa"; "vqa"; "summary"; "cot"; "cot-enhance"] ->
  (forall r w1,
      Create.prepare C a w = (Ok r, w1) ->
      Create.process_file C a w
      = (Err (ValueError ("Unknown content type: " ++ Create.content_type a)),
         w1))
  /\ (forall e w1,
         Create.prepare C a w = (Err e, w1) ->
         Create.process_file C a w = (Err e, w1)).
Proof.
  intro Hout. split.
  - intros [[client base_name] documents] w1 Hprep.
    unfold Create.process_file. unfold bind at 1. rewrite Hprep.
    repeat match goal with
           | |- context [if String.eqb (Create.content_type a) ?b
                         then _ else _] =>
               let E := fresh "E" in
               destruct (String.eqb (Create.content_type a) b) eqn:E;
               [apply String.eqb_eq in E; exfalso; apply Hout;
                rewrite E; simpl; auto 7 |]
           end.
    reflexivity.
  - intros e w1 Hprep. unfold Create.process_file. unfold bind at 1.
    rewrite Hprep. reflexivity.
Qed.

End PipelineExtras.

(** X24. Run against the recording backend of the example world, the loop
    calls the backend exactly once for each item that is an object with a
    list at [conversations], in input order and on that list; it calls it
    for no other item and touches no file. *)
Theorem backend_is_called_once_per_conversation
    (nested : bool) (items acc : list pyval) (w : Example.world) :
  exists out,
    Create.enhance_loop Example.studio nested items acc w
    = (Ok out,
       {| Example.writable := Example.writable w;
          Example.files := Example.files w;
          Example.calls := (Example.calls w ++ Example.sent items)%list |})
    /\ List.length out = (List.length acc + List.length items)%nat.
Proof.
  revert acc w. induction items as [| c rest IH]; intros acc w.
  - destruct w as [wr fs cs]. exists acc. simpl.
    rewrite app_nil_r. split; [reflexivity | lia].
  - assert (Hskip :
              Py.is_dict_with "conversations" c = false
              \/ (exists d v, c = PDict d
                              /\ Py.dict_get "conversations" d = Some v
                              /\ Py.is_list v = false)
              \/ (exists d msgs, c = PDict d
                                 /\ Py.dict_get "conversations" d
                                    = Some (PList msgs))).
    { destruct c as [| b | z | m e | s | l | d]; try (left; reflexivity).
      simpl. unfold Py.dict_has.
      destruct (Py.dict_get "conversations" d) as [v |] eqn:E;
        [| left; reflexivity].
      right.
      destruct v as [| b | z | m e | s | msgs | d'];
        try (left; exists d; eexists;
             split; [reflexivity | split; [exact E | reflexivity]]).
      right. exists d, msgs. split; [reflexivity | exact E]. }
    cbn [Create.enhance_loop]. unfold bind.
    destruct Hskip as [Hno | [[d [v [-> [Hget Hv]]]] | [d [msgs [-> Hget]]]]].
    + rewrite (enhance_item_untouched Example.studio nested c w Hno).
      destruct (IH (acc ++ [c])%list w) as [out [Hout Hlen]].
      exists out. rewrite Hout. split.
      * f_equal. f_equal.
        destruct c as [| b | z | m e | s | l | d]; try reflexivity.
        simpl in Hno. unfold Py.dict_has in Hno. cbn [Example.sent].
        destruct (Py.dict_get "conversations" d); [discriminate | reflexivity].
      * rewrite Hlen, length_app. simpl. lia.
    + rewrite (enhance_item_malformed Example.studio nested d v w Hget Hv).
      destruct (IH (acc ++ [PDict d])%list w) as [out [Hout Hlen]].
      exists out. rewrite Hout. split.
      * f_equal. f_equal. cbn [Example.sent]. rewrite Hget.
        destruct v; try reflexivity. discriminate.
      * rewrite Hlen, length_app. simpl. lia.
    + unfold Create.enhance_item. rewrite Hget. simpl. unfold bind.
      match goal with
      | |- context [Create.enhance_loop _ _ rest ?acc' ?w'] =>
          destruct (IH acc' w') as [out [Hout Hlen]]
      end.
      exists out. rewrite Hout. split.
      * f_equal. f_equal. simpl. rewrite Hget, <- app_assoc. reflexivity.
      * rewrite Hlen, length_app. simpl. lia.
Qed.

Section RouterExtras.
Context {W Gen : Type} (C : Create.Collab W Gen).

(** X25. When the preparation succeeds, the output directory was created
    and the client built, the base name of the output is the file name of
    the input without its extension, and the documents are what was read
    last: for an input that ends in [.lance] the rows that
    [load_lance_dataset] returned, and for any other input the single
    record [{"text": text, "image": None}] where [text] is what
    [read_json(file_path)] returned, so that the joined text of the
    documents is that text. *)
Theorem prepare_wraps_a_plain_file
    (a : Create.Args) (client : Create.Client) (base_name : string)
    (documents : pyval) (w w1 : W) :
  Create.prepare C a w = (Ok (client, base_name, documents), w1) ->
  base_name = fst (OsPath.splitext (OsPath.basename (Create.file_path a)))
  /\ exists client0 wa wb,
       Create.makedirs C (Create.output_dir a) w = (Ok tt, wa)
       /\ Create.LLMClient C (Create.config_path a) (Create.provider_arg a)
            (Create.api_base a) (Create.model a) wa = (Ok client0, wb)
       /\ (Str.endswith ".lance" (Create.file_path a) = true ->
           Create.load_lance_documents C (Create.file_path a) wb
           = (Ok documents, w1))
       /\ (Str.endswith ".lance" (Create.file_path a) = false ->
           exists text,
             Create.read_json C (Create.file_path a) wb = (Ok text, w1)
             /\ documents
                = PList [PDict [("text", PStr text); ("image", PNone)]]
             /\ Create.full_text documents = Ok text).
Proof.
  unfold Create.prepare, bind.
  destruct (Create.makedirs C (Create.output_dir a) w) as [[[] | e] wa]
    eqn:Hdir; [| discriminate].
  destruct (Create.LLMClient C (Create.config_path a) (Create.provider_arg a)
              (Create.api_base a) (Create.model a) wa) as [[c0 | e] wb]
    eqn:Hclient; [| discriminate].
  unfold lift.
  destruct (Create.override_opt "chunk_size" (Create.chunk_size a) c0)
    as [c1 | e]; [| discriminate].
  destruct (Create.override_opt "overlap" (Create.chunk_overlap a) c1)
    as [c2 | e]; [| discriminate].
  destruct (Str.endswith ".lance" (Create.file_path a)).
  - destruct (Create.load_lance_documents C (Create.file_path a) wb)
      as [[docs | e] w2] eqn:Hload; [| discriminate].
    unfold ret. intro H. inversion H. subst. split; [reflexivity |].
    exists c0, wa, wb.
    split; [reflexivity | split; [exact Hclient | split]].
    + intros _. exact Hload.
    + discriminate.
  - destruct (Create.read_json C (Create.file_path a) wb)
      as [[text | e] w2] eqn:Hread; [| discriminate].
    unfold ret. intro H. inversion H. subst. split; [reflexivity |].
    exists c0, wa, wb.
    split; [reflexivity | split; [exact Hclient | split]].
    + discriminate.
    + intros _. exists text. split; [exact Hread | split; reflexivity].
Qed.

(** X26. The [summary] branch from end to end: with the preparation done,
    the generator built and the summary returned for the joined text of
    the documents, the object [{"summary": summary}] is written to
    [os.path.join(output_dir, base_name + "_summary.json")] and that path
    is returned. *)
Theorem summary_is_written_as_an_object
    (a : Create.Args) (client : Create.Client) (base_name text : string)
    (documents summary : pyval) (gen : Gen) (w w1 w2 w3 w4 : W) :
  Create.content_type a = "summary" ->
  Create.prepare C a w = (Ok (client, base_name, documents), w1) ->
  Create.QAGenerator C client (Create.config_path a) w1 = (Ok gen, w2) ->
  Create.full_text documents = Ok text ->
  Create.generate_summary C gen text w2 = (Ok summary, w3) ->
  Create.json_dump C (PDict [("summary", summary)])
    (OsPath.join (Create.output_dir a) (base_name ++ "_summary.json")) w3
  = (Ok tt, w4) ->
  Create.process_file C a w
  = (Ok (OsPath.join (Create.output_dir a) (base_name ++ "_summary.json")),
     w4).
Proof.
  intros Hct Hprep Hgen Htext Hsum Hdump.
  unfold Create.process_file. unfold bind at 1. rewrite Hprep, Hct.
  cbv beta iota delta [String.eqb Ascii.eqb Bool.eqb].
  unfold Create.summary_branch, Create.summary_generate,
    Create.summary_output_path, bind, lift.
  rewrite Hgen, Htext, Hsum, Hdump. reflexivity.
Qed.

(** X27. The target count handed to the generator: the explicit
    [num_pairs] when there is one, whatever the configuration holds; else
    the value configured under [num_pairs] (for [qa]) or
    [num_cot_examples] (for [cot]); else 25 for [qa] and 5 for [cot]. *)
Theorem target_count_falls_back
    (a : Create.Args) (client : Create.Client) (documents : pyval)
    (text : string) (gen : Gen) (g : list (string * pyval)) (w w' : W) :
  Create.full_text documents = Ok text ->
  (Create.QAGenerator C client (Create.config_path a) w = (Ok gen, w') ->
   (forall n,
       Create.num_pairs a = Some n ->
       Create.qa_generate C a client documents w
       = Create.process_documents C gen documents (PInt n)
           (Create.verbose a) (Create.rolling_summary a) w')
   /\ (Create.num_pairs a = None ->
       Create.get_generation_config C (Create.config client) = Ok (PDict g) ->
       Create.qa_generate C a client documents w
       = Create.process_documents C gen documents
           (match Py.dict_get "num_pairs" g with
            | Some v => v
            | None => PInt 25
            end)
           (Create.verbose a) (Create.rolling_summary a) w'))
  /\ (Create.COTGenerator C client (Create.config_path a) w = (Ok gen, w') ->
      (forall n,
          Create.num_pairs a = Some n ->
          Create.cot_generate C a client documents w
          = Create.process_document C gen text (PInt n) (Create.verbose a) w')
      /\ (Create.num_pairs a = None ->
          Create.get_generation_config C (Create.config client)
          = Ok (PDict g) ->
          Create.cot_generate C a client documents w
          = Create.process_document C gen text
              (match Py.dict_get "num_cot_examples" g with
               | Some v => v
               | None => PInt 5
               end)
              (Create.verbose a) w')).
Proof.
  intro Htext. split.
  - intro Hgen. split.
    + intros n Hn. unfold Create.qa_generate, bind. rewrite Hgen, Hn.
      reflexivity.
    + intros Hn Hcfg. unfold Create.qa_generate, bind, lift.
      rewrite Hgen, Hn, Hcfg. reflexivity.
  - intro Hgen. split.
    + intros n Hn. unfold Create.cot_generate, bind, lift.
      rewrite Hgen, Htext, Hn. reflexivity.
    + intros Hn Hcfg. unfold Create.cot_generate, bind, lift.
      rewrite Hgen, Htext, Hn, Hcfg. reflexivity.
Qed.

End RouterExtras.


(* ===================================================================== *)
(** ** The further properties on runs of the example world *)
(* ===================================================================== *)

(** X1 on runs: a video URL is refused, an upper-case [.PPTX] accepted. *)
Lemma multimodal_accepts_three_extensions_witness :
  Ingest.determine_parser Example.recorder
    "https://www.youtube.com/watch?v=abc" true []
  = (Err (ValueError "Unsupported file extension for multimodal parsing: "), [])
  /\ Ingest.determine_parser Example.recorder "slides/deck.PPTX" true []
     = (Ok Ingest.MultimodalParser, []).
Proof.
  split.
  - destruct (multimodal_accepts_three_extensions Example.recorder
                "https://www.youtube.com/watch?v=abc" []) as [_ H].
    apply H. vm_compute. intros [H1 | [H1 | [H1 | []]]]; discriminate.
  - destruct (multimodal_accepts_three_extensions Example.recorder
                "slides/deck.PPTX" []) as [H _].
    apply H. vm_compute. auto.
Defined.

Lemma no_multimodal_parser_without_flag_witness :
  Ingest.HTMLParser <> Ingest.MultimodalParser.
Proof.
  apply (no_multimodal_parser_without_flag Example.recorder
           "https://example.org/x" Ingest.HTMLParser []
           [Example.Probed "https://example.org/x"]).
  reflexivity.
Defined.

(** X3 on runs: a URL that serves a PDF, and one that cannot be reached
    because the request raises a [RequestException]. *)
Lemma url_selection_follows_probe_witness :
  Ingest.determine_parser (Example.recorder_of false true)
    "https://example.org/paper" false []
  = (Ok Ingest.PDFParser, [Example.Probed "https://example.org/paper"])
  /\ Ingest.determine_parser Example.offline
       "https://example.org/paper" false []
     = (Ok Ingest.HTMLParser, [Example.Probed "https://example.org/paper"]).
Proof.
  split.
  - destruct (url_selection_follows_probe (Example.recorder_of false true)
                "https://example.org/paper" [] eq_refl) as [_ H].
    destruct H as [H _].
    + reflexivity.
    + vm_compute. discriminate.
    + apply (H (Some "application/pdf")). reflexivity.
  - destruct (url_selection_follows_probe Example.offline
                "https://example.org/paper" [] eq_refl) as [_ H].
    destruct H as [_ [H _]].
    + reflexivity.
    + vm_compute. discriminate.
    + apply H. reflexivity.
Defined.

(** X4 on runs: an existing [Readme.TXT], a missing file of unknown type. *)
Lemma local_path_selection_witness :
  Ingest.determine_parser (Example.recorder_of true false)
    "notes/Readme.TXT" false []
  = (Ok Ingest.TXTParser, [Example.Checked "notes/Readme.TXT"])
  /\ Ingest.determine_parser (Example.recorder_of false false)
       "notes/readme.xyz" false []
     = (Err (FileNotFoundError "File not found: notes/readme.xyz"),
        [Example.Checked "notes/readme.xyz"]).
Proof.
  split.
  - destruct (local_path_selection (Example.recorder_of true false)
                "notes/Readme.TXT" [] eq_refl
                ltac:(vm_compute; discriminate)) as [_ H].
    destruct (H eq_refl) as [Hin _].
    apply Hin. vm_compute. auto 6.
  - destruct (local_path_selection (Example.recorder_of false false)
                "notes/readme.xyz" [] eq_refl
                ltac:(vm_compute; discriminate)) as [H _].
    apply (H eq_refl).
Defined.

Lemma video_id_is_clean_witness :
  "abc" <> "" /\ Str.contains "&" "abc" = false.
Proof.
  apply (video_id_is_clean "https://www.youtube.com/watch?v=abc&t=1" "abc").
  reflexivity.
Defined.

Lemma video_urls_are_named_after_their_id_witness :
  Ingest.derive_output_name Example.recorder
    "https://www.youtube.com/watch?v=dQw4&t=42" = Ok "youtube_dQw4"
  /\ Ingest.derive_output_name Example.recorder
       "https://youtu.be/dQw4&t=42" = Ok "youtube_dQw4".
Proof.
  apply (video_urls_are_named_after_their_id Example.recorder "dQw4" "&t=42").
  - discriminate.
  - reflexivity.
  - right. reflexivity.
Defined.

(** X7 on runs: the channel URL of C10 with a name given, and a name that
    climbs out of the output directory. *)
Lemma given_output_name_is_used_witness :
  Ingest.process_file Example.recorder "https://www.youtube.com/@channel"
    (Some "out") (Some "channel") false []
  = (Ok "out/channel.lance",
     [Example.Checked "out"; Example.MadeDir "out";
      Example.Parsed Ingest.YouTubeParser "https://www.youtube.com/@channel";
      Example.Stored "out/channel.lance"])
  /\ OsPath.join "out" ("../elsewhere/channel" ++ ".lance")
     = "out/../elsewhere/channel.lance".
Proof.
  split.
  - apply (given_output_name_is_used Example.recorder
             "https://www.youtube.com/@channel" "out" "channel" false "text"
             [] _ _ ltac:(discriminate) eq_refl eq_refl).
  - destruct (given_output_name_is_used Example.recorder
                "https://www.youtube.com/@channel" "out"
                "../elsewhere/channel" false "text"
                [] _ _ ltac:(discriminate) eq_refl eq_refl) as [_ [H _]].
    apply H. reflexivity.
Defined.

Lemma host_name_has_no_dot_witness :
  exists name,
    Ingest.derive_output_name (Example.recorder_of false false)
      "https://docs.example.org/guide" = Ok name
    /\ name = Str.replace_char "." "_" "docs.example.org"
    /\ String.length name = String.length "docs.example.org"
    /\ Str.contains "." name = false.
Proof.
  apply (host_name_has_no_dot (Example.recorder_of false false)
           "https://docs.example.org/guide" "docs.example.org");
    reflexivity.
Defined.

Lemma local_file_is_named_after_its_stem_witness :
  exists name,
    Ingest.derive_output_name Example.recorder "notes/archive.tar.gz" = Ok name
    /\ name ++ snd (OsPath.splitext (OsPath.basename "notes/archive.tar.gz"))
       = OsPath.basename "notes/archive.tar.gz"
    /\ Str.contains "/" name = false
    /\ String.prefix "out" (OsPath.join "out" (name ++ ".lance")) = true.
Proof.
  apply (local_file_is_named_after_its_stem Example.recorder
           "notes/archive.tar.gz" "out").
  reflexivity.
Defined.

(** X10 on a run: a local file that is missing. *)
Lemma early_failure_is_passed_on_witness :
  Ingest.process_file Example.recorder "notes/readme.txt" (Some "out") None
    false []
  = (Err (FileNotFoundError "File not found: notes/readme.txt"),
     [Example.Checked "out"; Example.MadeDir "out";
      Example.Checked "notes/readme.txt"]).
Proof.
  apply (early_failure_is_passed_on Example.recorder "notes/readme.txt" "out"
           None false).
  reflexivity.
Defined.

(** X11 on runs: a PDF served with a charset, a page, no header, no
    connection. *)
Lemma pdf_probe_reads_content_type_witness :
  Ingest._check_pdf_url
    (Example.server (Some "application/pdf; charset=binary")) "u" []
  = (Ok true, [Example.Probed "u"])
  /\ Ingest._check_pdf_url (Example.server (Some "text/html")) "u" []
     = (Ok false, [Example.Probed "u"])
  /\ Ingest._check_pdf_url (Example.server None) "u" []
     = (Ok false, [Example.Probed "u"])
  /\ Ingest._check_pdf_url Example.unreachable "u" []
     = (Ok false, [Example.Probed "u"]).
Proof.
  split; [| split; [| split]].
  - destruct (pdf_probe_reads_content_type
                (Example.server (Some "application/pdf; charset=binary"))
                "u" [] [Example.Probed "u"]) as [H _].
    apply (H "" "; charset=binary"). reflexivity.
  - destruct (pdf_probe_reads_content_type
                (Example.server (Some "text/html"))
                "u" [] [Example.Probed "u"]) as [_ [H _]].
    apply (H "text/html"); reflexivity.
  - destruct (pdf_probe_reads_content_type (Example.server None)
                "u" [] [Example.Probed "u"]) as [_ [_ [H _]]].
    apply H. reflexivity.
  - destruct (pdf_probe_reads_content_type Example.unreachable
                "u" [] [Example.Probed "u"]) as [_ [_ [_ [H _]]]].
    apply H. reflexivity.
Defined.

(** X13 on a run: five conversations, limit -2. *)
Lemma limit_is_a_slice_witness :
  Create.limit_conversations (PInt (-2))
    (PList [PInt 1; PInt 2; PInt 3; PInt 4; PInt 5])
  = Ok (PList [PInt 1; PInt 2; PInt 3])
  /\ Z.of_nat (List.length [PInt 1; PInt 2; PInt 3]) = Z.max 0 (5 + -2).
Proof.
  destruct (limit_is_a_slice (-2) [PInt 1; PInt 2; PInt 3; PInt 4; PInt 5])
    as [H1 [_ H2]].
  split; [exact H1 | apply H2; lia].
Defined.

Lemma full_text_joins_texts_witness :
  Create.full_text (PList [PDict [("text", PStr "A")];
                           PDict [("text", PStr "B"); ("image", PNone)]])
  = Ok "A B"
  /\ Create.full_text (PList [PDict [("text", PInt 1)]; PDict [];
                              PDict [("text", PStr "C")]])
     = Err KeyError.
Proof.
  apply (full_text_joins_texts
           [PDict [("text", PStr "A")];
            PDict [("text", PStr "B"); ("image", PNone)]]
           ["A"; "B"]
           [PDict [("text", PInt 1)]] [PDict [("text", PStr "C")]]
           (PDict []) KeyError).
  - repeat constructor.
  - constructor; [exists (PInt 1); reflexivity | constructor].
  - reflexivity.
Defined.

Lemma generation_override_is_visible_witness :
  exists d' g',
    Create.override_generation "chunk_size" 4000
      (PDict [("llm", PStr "vllm");
              ("generation", PDict [("num_pairs", PInt 25)])])
    = Ok (PDict d')
    /\ Py.dict_get "generation" d' = Some (PDict g')
    /\ Py.dict_get "chunk_size" g' = Some (PInt 4000)
    /\ Py.dict_get "num_pairs" g' = Some (PInt 25)
    /\ Py.dict_get "llm" d' = Some (PStr "vllm").
Proof.
  destruct (generation_override_is_visible "chunk_size" 4000
              [("llm", PStr "vllm");
               ("generation", PDict [("num_pairs", PInt 25)])])
    as [d' [g' [H1 [H2 [H3 [H4 H5]]]]]].
  - right. eexists. reflexivity.
  - exists d', g'. split; [exact H1 | split; [exact H2 | split; [exact H3 |]]].
    split.
    + rewrite (H5 "num_pairs"); [reflexivity | discriminate].
    + rewrite (H4 "llm"); [reflexivity | discriminate].
Defined.

Lemma items_without_conversations_pass_through_witness :
  Create.enhance_loop Example.studio false
    [PStr "a"; PInt 1; Example.human "q"] [] (Example.disk [])
  = (Ok [PStr "a"; PInt 1; Example.human "q"], Example.disk []).
Proof.
  apply (items_without_conversations_pass_through Example.studio false
           [PStr "a"; PInt 1; Example.human "q"] [] (Example.disk [])).
  repeat constructor.
Defined.

Lemma enhanced_items_match_input_witness :
  Forall2 (fun c item =>
             item = c
             \/ exists d msgs v,
                  c = PDict d
                  /\ Py.dict_get "conversations" d = Some (PList msgs)
                  /\ item = PDict (Py.dict_set "conversations" v d))
          [Example.chat 1 "q" "a"; PStr "note"]
          [PDict [("id", PInt 1);
                  ("conversations",
                   PList [Example.human "q"; Example.assistant "a";
                          Example.thought])];
           PStr "note"].
Proof.
  apply (enhanced_items_match_input Example.studio false
           [Example.chat 1 "q" "a"; PStr "note"] _ (Example.disk [])
           {| Example.writable := true; Example.files := [];
              Example.calls :=
                [PList [Example.human "q"; Example.assistant "a"]] |}).
  reflexivity.
Defined.

(** X18 on a run: the backend gives up on the second conversation. *)
Lemma backend_failure_ends_the_loop_witness :
  let long := [("conversations",
                PList [Example.human "a"; Example.assistant "b";
                       Example.human "c"])] in
  Create.enhance_loop
    (Example.studio_of Example.load (Example.impatient (Raised "Timeout")))
    false
    [Example.chat 1 "q" "a"; PDict long; Example.chat 3 "q3" "a3"] []
    (Example.disk [])
  = (Err (Raised "Timeout"),
     {| Example.writable := true; Example.files := [];
        Example.calls :=
          [PList [Example.human "q"; Example.assistant "a"]] |}).
Proof.
  intro long.
  apply (backend_failure_ends_the_loop
           (Example.studio_of Example.load
              (Example.impatient (Raised "Timeout")))
           false [Example.chat 1 "q" "a"] [Example.chat 3 "q3" "a3"] [] _
           long _ (Raised "Timeout") (Example.disk []) _ _
           eq_refl eq_refl eq_refl).
Defined.

Lemma message_list_is_written_as_object_witness :
  Create.enhanced_document Example.studio false false PNone
    (PList [Example.human "q"; Example.assistant "a"]) (Example.disk [])
  = (Ok (PDict [("conversations",
                 PList [Example.human "q"; Example.assistant "a";
                        Example.thought])]),
     {| Example.writable := true; Example.files := [];
        Example.calls :=
          [PList [Example.human "q"; Example.assistant "a"]] |}).
Proof.
  apply (message_list_is_written_as_object Example.studio false false
           [Example.human "q"; Example.assistant "a"] PNone
           (PList [Example.human "q"; Example.assistant "a"; Example.thought])
           (Example.disk []) _ eq_refl eq_refl (or_introl eq_refl) eq_refl).
Defined.

Lemma unrecognised_input_passes_through_witness :
  Create.enhanced_document Example.studio false false PNone (PList [])
    (Example.disk [])
  = (Ok (PList []), Example.disk [])
  /\ Create.enhanced_document Example.studio false false PNone
       (PDict [("title", PStr "t"); ("pages", PInt 3)]) (Example.disk [])
     = (Ok (PList [PStr "title"; PStr "pages"]), Example.disk [])
  /\ (exists e,
         Create.enhanced_document Example.studio false false (PInt 1)
           (PDict [("title", PStr "t"); ("pages", PInt 3)]) (Example.disk [])
         = (Err e, Example.disk [])).
Proof.
  apply (unrecognised_input_passes_through Example.studio false false
           [] [("title", PStr "t"); ("pages", PInt 3)] 1 (Example.disk [])).
  - constructor.
  - left. reflexivity.
  - reflexivity.
  - reflexivity.
  - simpl. lia.
Defined.

(** X21 on a run: the input file holds the number 5. *)
Lemma scalar_input_raises_type_error_witness :
  Create.process_file Example.studio (Example.job "cot-enhance" None)
    (Example.disk [("data/talk.json", PInt 5)])
  = (Err TypeError, Example.disk [("data/talk.json", PInt 5)]).
Proof.
  apply (scalar_input_raises_type_error Example.studio false false
           (PInt 5) PNone (Example.job "cot-enhance" None) _ _ _ PNone
           (Example.disk []) (Example.disk [("data/talk.json", PInt 5)])
           _ _ _ I eq_refl eq_refl eq_refl eq_refl).
Defined.

(** X22 on a run: the input file is not JSON. *)
Lemma json_errors_become_value_errors_witness :
  Create.process_file (Example.studio_of Example.garbled Example.think)
    (Example.job "cot-enhance" None) (Example.disk [])
  = (Err (ValueError
            "Failed to parse data/talk.json as JSON. For cot-enhance, input must be a valid JSON file."),
     Example.disk []).
Proof.
  destruct (json_errors_become_value_errors
              (Example.studio_of Example.garbled Example.think)
              (Example.job "cot-enhance" None) _ _ _ _ _ JSONDecodeError
              (Example.disk []) _ _ (Example.disk [])
              eq_refl eq_refl eq_refl eq_refl) as [_ [H _]].
  apply H. reflexivity.
Defined.

Lemma unknown_content_type_is_refused_last_witness :
  Create.process_file Example.studio (Example.job "poem" None)
    (Example.disk [])
  = (Err (ValueError "Unknown content type: poem"), Example.disk []).
Proof.
  destruct (unknown_content_type_is_refused_last Example.studio
              (Example.job "poem" None) (Example.disk [])) as [H _].
  - vm_compute. intros [H | [H | [H | [H | [H | [H | []]]]]]]; discriminate.
  - apply (H _ _ eq_refl).
Defined.

(** X25 on a run: the input file holds the text ["Once upon a time"]. *)
Lemma prepare_wraps_a_plain_file_witness :
  "talk" = fst (OsPath.splitext (OsPath.basename "data/talk.json"))
  /\ exists text,
       Create.read_json (Example.reading_room "Once upon a time")
         "data/talk.json" (Example.disk [])
       = (Ok text, Example.disk [])
       /\ PList [PDict [("text", PStr "Once upon a time"); ("image", PNone)]]
          = PList [PDict [("text", PStr text); ("image", PNone)]]
       /\ Create.full_text
            (PList [PDict [("text", PStr "Once upon a time");
                           ("image", PNone)]])
          = Ok text.
Proof.
  destruct (prepare_wraps_a_plain_file
              (Example.reading_room "Once upon a time")
              (Example.job "summary" None) _ "talk" _ (Example.disk [])
              (Example.disk []) eq_refl)
    as [H1 [client0 [wa [wb [Hdir [Hclient [_ H2]]]]]]].
  split; [exact H1 |].
  inversion Hdir. inversion Hclient. subst. apply H2. reflexivity.
Defined.

(** X26 on a run. *)
Lemma summary_is_written_as_an_object_witness :
  Create.process_file Example.studio (Example.job "summary" None)
    (Example.disk [])
  = (Ok "out/talk_summary.json",
     Example.disk [("out/talk_summary.json", PDict [("summary", PStr "")])]).
Proof.
  apply (summary_is_written_as_an_object Example.studio
           (Example.job "summary" None) _ "talk" "" _ (PStr "") false
           (Example.disk []) (Example.disk []) (Example.disk [])
           (Example.disk []) _ eq_refl eq_refl eq_refl eq_refl eq_refl
           eq_refl).
Defined.

(** X27 on runs: no count given and none configured, then a count given. *)
Lemma target_count_falls_back_witness :
  let client := {| Create.provider := "vllm"; Create.config := PDict [] |} in
  let docs := PList [PDict [("text", PStr "A"); ("image", PNone)]] in
  Create.qa_generate Example.studio (Example.job "qa" None) client docs
    (Example.disk [])
  = Create.process_documents Example.studio false docs (PInt 25) false false
      (Example.disk [])
  /\ Create.cot_generate Example.studio (Example.job "cot" (Some 3)) client
       docs (Example.disk [])
     = Create.process_document Example.studio false "A" (PInt 3) false
         (Example.disk []).
Proof.
  intros client docs. split.
  - destruct (target_count_falls_back Example.studio (Example.job "qa" None)
                client docs "A" false [] (Example.disk []) (Example.disk [])
                eq_refl) as [H _].
    destruct (H eq_refl) as [_ H2]. apply (H2 eq_refl eq_refl).
  - destruct (target_count_falls_back Example.studio
                (Example.job "cot" (Some 3)) client docs "A" false []
                (Example.disk []) (Example.disk []) eq_refl) as [_ H].
    destruct (H eq_refl) as [H1 _]. apply (H1 3 eq_refl).
Defined.
